(** * Gait Documentation App: persistence, derived values, backup

    A shallow embedding of the [Database] class of
    [src/GaitDocumentationApp.py] and of the three pieces of window code
    that decide how its results are used ([AddPatientWindow.add_patient],
    [PatientDetailWindow._calculate_age_at_event] and
    [AttachmentWindowBase.add_attachment]).

    Conventions.
    - Python [float] is IEEE binary64, embedded as [spec_float] with
      precision 53 and [emax = 1024]; [None] is [option]'s [None].
    - Python exceptions are values of [exn]; code that may raise returns a
      [result]; methods that mutate the connection return the new store
      next to the result, so that a failed statement hands back the store
      it left behind.
    - SQL tables are lists of rows in rowid order. *)

From Stdlib Require Import ZArith QArith Qround String Ascii List Bool Lia.
From Stdlib Require Import SpecFloat Sorting.Sorted Permutation.
From stdpp Require Import base option list sorting strings gmap pretty.

Local Open Scope string_scope.
Local Open Scope list_scope.
Local Open Scope Z_scope.

(** ** Exceptions and results *)

Inductive exn : Type :=
| ZeroDivisionError (msg : string)
| OverflowError (msg : string)
| ValueError (msg : string)
| OSError (msg : string)
| IntegrityError (msg : string)      (* sqlite3.IntegrityError *)
| OperationalError (msg : string).   (* sqlite3.OperationalError *)

(** [str(e)] as used in the f-strings of the handlers. *)
Definition exn_str (e : exn) : string :=
  match e with
  | ZeroDivisionError m | OverflowError m | ValueError m
  | OSError m | IntegrityError m | OperationalError m => m
  end.

Inductive result (A : Type) : Type :=
| Ok (a : A)
| Raise (e : exn).
Arguments Ok {A} a.
Arguments Raise {A} e.

#[global] Instance result_ret : MRet result := λ A a, Ok a.
#[global] Instance result_bind : MBind result := λ A B k r,
  match r with
  | Ok a => k a
  | Raise e => Raise e
  end.

(** ** Python floats *)

Module PyFloat.

Definition prec : Z := 53.
Definition emax : Z := 1024.

Definition float : Type := spec_float.

(** The float a Python [int] converts to; exact below [2^53]. *)
Definition of_Z (z : Z) : float := binary_normalize prec emax z 0 false.

Definition zero : float := S754_zero false.

Definition is_nan (x : float) : bool :=
  match x with S754_nan => true | _ => false end.

Definition is_finite (x : float) : bool :=
  match x with S754_zero _ | S754_finite _ _ _ => true | _ => false end.

(** [bool(x)], [float.__bool__]: [x != 0.0]; a NaN is true. *)
Definition truthy (x : float) : bool := negb (SFeqb x zero).

(** [x > 0] against the integer literal [0]. *)
Definition gt_zero (x : float) : bool := SFltb zero x.

(** [a / b], [float.__truediv__]: a zero divisor raises, everything else
    is the IEEE quotient. *)
Definition truediv (a b : float) : result float :=
  if SFeqb b zero then Raise (ZeroDivisionError "float division by zero")
  else Ok (SFdiv prec emax a b).

(** [x ** 2], [float.__pow__] at the exponent [2.0]: NaN, the infinities
    and the zeros are answered before the C library is called; a finite
    base is squared by [pow], taken here as the correctly rounded
    product, and a result that left the finite range raises. *)
Definition pow2 (x : float) : result float :=
  match x with
  | S754_nan => Ok S754_nan
  | S754_infinity _ => Ok (S754_infinity false)
  | S754_zero _ => Ok zero
  | S754_finite _ _ _ =>
      let y := SFmul prec emax x x in
      if is_finite y then Ok y
      else Raise (OverflowError "(34, 'Numerical result out of range')")
  end.

Definition hundred : float := of_Z 100.

End PyFloat.

Import PyFloat.

(** What [sqlite3] stores for a [float | None] parameter bound to a REAL
    column: [None] binds NULL and SQLite turns a NaN into NULL. *)
Definition bind_real (x : option float) : option float :=
  match x with
  | Some v => if is_nan v then None else Some v
  | None => None
  end.

(** Truth value of an optional float in a condition. *)
Definition truthy_opt (x : option float) : bool :=
  match x with
  | Some v => truthy v
  | None => false
  end.

(** ** Rows of the five tables ([Database.create_tables]) *)

Module Patient.
Record row : Type := {
  patient_id : Z;
  patient_code : option string;     (* TEXT UNIQUE *)
  first_name : string;              (* TEXT NOT NULL *)
  last_name : string;               (* TEXT NOT NULL *)
  birth_date : string;              (* TEXT NOT NULL *)
  diagnosis : option string;
  gender : option string;
  height : option float;
  assistive_device : option string;
  address : option string;
  post_number : option string;
  city : option string;
  country : option string;
  phone : option string;
  mobile : option string;
  email : option string
}.
End Patient.

Module Exam.
Record row : Type := {
  exam_id : Z;
  patient_id : Z;                   (* REFERENCES patients ON DELETE CASCADE *)
  exam_type : string;
  exam_date : string;
  notes : option string;
  height_cm : option float;
  weight_kg : option float;
  assistive_device : option string;
  bmi : option float;
  examiner : option string
}.
End Exam.

Module ExamAttachment.
Record row : Type := {
  file_id : Z;
  exam_id : Z;                      (* REFERENCES exams ON DELETE CASCADE *)
  file_path : string;
  description : option string
}.
End ExamAttachment.

Module Intervention.
Record row : Type := {
  intervention_id : Z;
  patient_id : Z;                   (* REFERENCES patients ON DELETE CASCADE *)
  intervention_type : string;
  intervention_date : string;
  notes : option string;
  height_cm : option float;
  weight_kg : option float;
  assistive_device : option string;
  bmi : option float;
  operator : option string
}.
End Intervention.

Module InterventionAttachment.
Record row : Type := {
  file_id : Z;
  intervention_id : Z;              (* REFERENCES interventions ON DELETE CASCADE *)
  file_path : string;
  description : option string
}.
End InterventionAttachment.

(** The contents of the database file.  The [seq_] fields are the rows of
    [sqlite_sequence] that AUTOINCREMENT keeps: the largest rowid ever
    handed out for the table. *)
Record store : Type := {
  patients : list Patient.row;
  exams : list Exam.row;
  exam_attachments : list ExamAttachment.row;
  interventions : list Intervention.row;
  intervention_attachments : list InterventionAttachment.row;
  seq_patients : Z;
  seq_exams : Z;
  seq_exam_attachments : Z;
  seq_interventions : Z;
  seq_intervention_attachments : Z
}.

Definition empty_store : store :=
  {| patients := []; exams := []; exam_attachments := [];
     interventions := []; intervention_attachments := [];
     seq_patients := 0; seq_exams := 0; seq_exam_attachments := 0;
     seq_interventions := 0; seq_intervention_attachments := 0 |}.

(** The [Database] object: the open connection (with
    [PRAGMA foreign_keys = ON]), the path it was opened on, and the
    attribute [_birth_range], absent until [set_birth_range] is called. *)
Record Database : Type := {
  conn : store;
  db_path : string;
  _birth_range : option (option string * option string)
}.

Definition with_conn (self : Database) (s : store) : Database :=
  {| conn := s; db_path := db_path self; _birth_range := _birth_range self |}.

(** [Database(db_path)] on a file that does not exist yet. *)
Definition Database_init (path : string) : Database :=
  {| conn := empty_store; db_path := path; _birth_range := None |}.

(** ** SQLite's constraint checks *)

(** UNIQUE on [patients.patient_code]: a NULL collides with nothing. *)
Definition code_in_use (code : option string) (rows : list Patient.row) : bool :=
  match code with
  | Some c => bool_decide (Some c ∈ Patient.patient_code <$> rows)
  | None => false
  end.

Definition unique_failed : exn :=
  IntegrityError "UNIQUE constraint failed: patients.patient_code".

Definition foreign_key_failed : exn :=
  IntegrityError "FOREIGN KEY constraint failed".

Definition has_patient (s : store) (pid : Z) : bool :=
  bool_decide (pid ∈ Patient.patient_id <$> patients s).

Definition has_exam (s : store) (eid : Z) : bool :=
  bool_decide (eid ∈ Exam.exam_id <$> exams s).

Definition has_intervention (s : store) (iid : Z) : bool :=
  bool_decide (iid ∈ Intervention.intervention_id <$> interventions s).

(** ** [Database]: patients *)

Definition add_patient (self : Database)
    (first_name last_name birth_date : string) (diagnosis : option string)
    (gender : option string) (height : option float)
    (assistive_device patient_code address post_number city country
       phone mobile email : option string) : result Z * Database :=
  let s := conn self in
  if code_in_use patient_code (patients s) then (Raise unique_failed, self)
  else
    let lastrowid := seq_patients s + 1 in
    let r := {| Patient.patient_id := lastrowid;
                Patient.patient_code := patient_code;
                Patient.first_name := first_name;
                Patient.last_name := last_name;
                Patient.birth_date := birth_date;
                Patient.diagnosis := diagnosis;
                Patient.gender := gender;
                Patient.height := bind_real height;
                Patient.assistive_device := assistive_device;
                Patient.address := address;
                Patient.post_number := post_number;
                Patient.city := city;
                Patient.country := country;
                Patient.phone := phone;
                Patient.mobile := mobile;
                Patient.email := email |} in
    (Ok lastrowid,
     with_conn self
       {| patients := patients s ++ [r];
          exams := exams s;
          exam_attachments := exam_attachments s;
          interventions := interventions s;
          intervention_attachments := intervention_attachments s;
          seq_patients := lastrowid;
          seq_exams := seq_exams s;
          seq_exam_attachments := seq_exam_attachments s;
          seq_interventions := seq_interventions s;
          seq_intervention_attachments := seq_intervention_attachments s |}).

Definition get_patient (self : Database) (patient_id : Z) : option Patient.row :=
  head (filter (λ p, Patient.patient_id p = patient_id) (patients (conn self))).

(** [DELETE FROM patients WHERE patient_id = ?] with foreign keys on: the
    rows of [exams] and [interventions] that reference a deleted patient
    go with it, and so do the attachment rows that reference those. *)
Definition delete_patient (self : Database) (patient_id : Z) : Database :=
  let s := conn self in
  let gone :=
    Patient.patient_id <$>
      filter (λ p, Patient.patient_id p = patient_id) (patients s) in
  let gone_exams :=
    Exam.exam_id <$> filter (λ e, Exam.patient_id e ∈ gone) (exams s) in
  let gone_interventions :=
    Intervention.intervention_id <$>
      filter (λ i, Intervention.patient_id i ∈ gone) (interventions s) in
  with_conn self
    {| patients := filter (λ p, Patient.patient_id p ≠ patient_id) (patients s);
       exams := filter (λ e, Exam.patient_id e ∉ gone) (exams s);
       exam_attachments :=
         filter (λ a, ExamAttachment.exam_id a ∉ gone_exams)
                (exam_attachments s);
       interventions :=
         filter (λ i, Intervention.patient_id i ∉ gone) (interventions s);
       intervention_attachments :=
         filter (λ a, InterventionAttachment.intervention_id a ∉ gone_interventions)
                (intervention_attachments s);
       seq_patients := seq_patients s;
       seq_exams := seq_exams s;
       seq_exam_attachments := seq_exam_attachments s;
       seq_interventions := seq_interventions s;
       seq_intervention_attachments := seq_intervention_attachments s |}.

(** [UPDATE patients SET ... WHERE patient_id = ?]; the new code must not
    be the code of another row. *)
Definition update_patient (self : Database) (patient_id : Z)
    (first_name last_name birth_date : string)
    (diagnosis gender patient_code address post_number city country
       phone mobile email : option string) : result unit * Database :=
  let s := conn self in
  let hit := filter (λ p, Patient.patient_id p = patient_id) (patients s) in
  let others := filter (λ p, Patient.patient_id p ≠ patient_id) (patients s) in
  match hit with
  | [] => (Ok (), self)
  | _ :: _ =>
      if code_in_use patient_code others then (Raise unique_failed, self)
      else
        let upd (p : Patient.row) : Patient.row :=
          if bool_decide (Patient.patient_id p = patient_id) then
            {| Patient.patient_id := Patient.patient_id p;
               Patient.patient_code := patient_code;
               Patient.first_name := first_name;
               Patient.last_name := last_name;
               Patient.birth_date := birth_date;
               Patient.diagnosis := diagnosis;
               Patient.gender := gender;
               Patient.height := Patient.height p;
               Patient.assistive_device := Patient.assistive_device p;
               Patient.address := address;
               Patient.post_number := post_number;
               Patient.city := city;
               Patient.country := country;
               Patient.phone := phone;
               Patient.mobile := mobile;
               Patient.email := email |}
          else p in
        (Ok (),
         with_conn self
           {| patients := upd <$> patients s;
              exams := exams s;
              exam_attachments := exam_attachments s;
              interventions := interventions s;
              intervention_attachments := intervention_attachments s;
              seq_patients := seq_patients s;
              seq_exams := seq_exams s;
              seq_exam_attachments := seq_exam_attachments s;
              seq_interventions := seq_interventions s;
              seq_intervention_attachments := seq_intervention_attachments s |})
  end.

(** ** [Database]: examinations *)

(** The BMI block that opens [add_exam]. *)
Definition bmi_of_add_exam (height_cm weight_kg : option float) : option float :=
  match height_cm, weight_kg with
  | Some h, Some w =>
      if truthy h && truthy w && gt_zero h then
        match q ← truediv h hundred; sq ← pow2 q; truediv w sq with
        | Ok bmi => Some bmi
        | Raise _ => None
        end
      else None
  | _, _ => None
  end.

Definition add_exam (self : Database) (patient_id : Z)
    (exam_type exam_date : string) (notes : option string)
    (height_cm weight_kg : option float)
    (assistive_device examiner : option string) : result Z * Database :=
  let bmi := bmi_of_add_exam height_cm weight_kg in
  let s := conn self in
  if has_patient s patient_id then
    let lastrowid := seq_exams s + 1 in
    let r := {| Exam.exam_id := lastrowid;
                Exam.patient_id := patient_id;
                Exam.exam_type := exam_type;
                Exam.exam_date := exam_date;
                Exam.notes := notes;
                Exam.height_cm := bind_real height_cm;
                Exam.weight_kg := bind_real weight_kg;
                Exam.assistive_device := assistive_device;
                Exam.bmi := bind_real bmi;
                Exam.examiner := examiner |} in
    (Ok lastrowid,
     with_conn self
       {| patients := patients s;
          exams := exams s ++ [r];
          exam_attachments := exam_attachments s;
          interventions := interventions s;
          intervention_attachments := intervention_attachments s;
          seq_patients := seq_patients s;
          seq_exams := lastrowid;
          seq_exam_attachments := seq_exam_attachments s;
          seq_interventions := seq_interventions s;
          seq_intervention_attachments := seq_intervention_attachments s |})
  else (Raise foreign_key_failed, self).

Definition get_exam (self : Database) (exam_id : Z) : option Exam.row :=
  head (filter (λ e, Exam.exam_id e = exam_id) (exams (conn self))).

Definition delete_exam (self : Database) (exam_id : Z) : Database :=
  let s := conn self in
  let gone :=
    Exam.exam_id <$> filter (λ e, Exam.exam_id e = exam_id) (exams s) in
  with_conn self
    {| patients := patients s;
       exams := filter (λ e, Exam.exam_id e ≠ exam_id) (exams s);
       exam_attachments :=
         filter (λ a, ExamAttachment.exam_id a ∉ gone) (exam_attachments s);
       interventions := interventions s;
       intervention_attachments := intervention_attachments s;
       seq_patients := seq_patients s;
       seq_exams := seq_exams s;
       seq_exam_attachments := seq_exam_attachments s;
       seq_interventions := seq_interventions s;
       seq_intervention_attachments := seq_intervention_attachments s |}.

(** The BMI block that opens [update_exam]. *)
Definition bmi_of_update_exam (height_cm weight_kg : option float) : option float :=
  match height_cm, weight_kg with
  | Some h, Some w =>
      if truthy h && truthy w && gt_zero h then
        match q ← truediv h hundred; sq ← pow2 q; truediv w sq with
        | Ok bmi => Some bmi
        | Raise _ => None
        end
      else None
  | _, _ => None
  end.

Definition update_exam (self : Database) (exam_id : Z)
    (exam_type exam_date : string) (notes : option string)
    (height_cm weight_kg : option float)
    (assistive_device examiner : option string) : Database :=
  let bmi := bmi_of_update_exam height_cm weight_kg in
  let s := conn self in
  let upd (e : Exam.row) : Exam.row :=
    if bool_decide (Exam.exam_id e = exam_id) then
      {| Exam.exam_id := Exam.exam_id e;
         Exam.patient_id := Exam.patient_id e;
         Exam.exam_type := exam_type;
         Exam.exam_date := exam_date;
         Exam.notes := notes;
         Exam.height_cm := bind_real height_cm;
         Exam.weight_kg := bind_real weight_kg;
         Exam.assistive_device := assistive_device;
         Exam.bmi := bind_real bmi;
         Exam.examiner := examiner |}
    else e in
  with_conn self
    {| patients := patients s;
       exams := upd <$> exams s;
       exam_attachments := exam_attachments s;
       interventions := interventions s;
       intervention_attachments := intervention_attachments s;
       seq_patients := seq_patients s;
       seq_exams := seq_exams s;
       seq_exam_attachments := seq_exam_attachments s;
       seq_interventions := seq_interventions s;
       seq_intervention_attachments := seq_intervention_attachments s |}.

Definition add_exam_attachment (self : Database) (exam_id : Z)
    (file_path description : string) : result Z * Database :=
  let s := conn self in
  if has_exam s exam_id then
    let lastrowid := seq_exam_attachments s + 1 in
    let r := {| ExamAttachment.file_id := lastrowid;
                ExamAttachment.exam_id := exam_id;
                ExamAttachment.file_path := file_path;
                ExamAttachment.description := Some description |} in
    (Ok lastrowid,
     with_conn self
       {| patients := patients s;
          exams := exams s;
          exam_attachments := exam_attachments s ++ [r];
          interventions := interventions s;
          intervention_attachments := intervention_attachments s;
          seq_patients := seq_patients s;
          seq_exams := seq_exams s;
          seq_exam_attachments := lastrowid;
          seq_interventions := seq_interventions s;
          seq_intervention_attachments := seq_intervention_attachments s |})
  else (Raise foreign_key_failed, self).

(** [SELECT file_id, file_path, description ... ORDER BY file_id]: the
    table is kept in rowid order. *)
Definition get_exam_attachments (self : Database) (exam_id : Z)
    : list (Z * string * option string) :=
  (λ a, (ExamAttachment.file_id a, ExamAttachment.file_path a,
         ExamAttachment.description a)) <$>
    filter (λ a, ExamAttachment.exam_id a = exam_id)
           (exam_attachments (conn self)).

Definition delete_exam_attachment (self : Database) (file_id : Z) : Database :=
  let s := conn self in
  with_conn self
    {| patients := patients s;
       exams := exams s;
       exam_attachments :=
         filter (λ a, ExamAttachment.file_id a ≠ file_id) (exam_attachments s);
       interventions := interventions s;
       intervention_attachments := intervention_attachments s;
       seq_patients := seq_patients s;
       seq_exams := seq_exams s;
       seq_exam_attachments := seq_exam_attachments s;
       seq_interventions := seq_interventions s;
       seq_intervention_attachments := seq_intervention_attachments s |}.

(** ** [Database]: interventions *)

(** The BMI block that opens [add_intervention]. *)
Definition bmi_of_add_intervention (height_cm weight_kg : option float)
    : option float :=
  match height_cm, weight_kg with
  | Some h, Some w =>
      if truthy h && truthy w && gt_zero h then
        match q ← truediv h hundred; sq ← pow2 q; truediv w sq with
        | Ok bmi => Some bmi
        | Raise _ => None
        end
      else None
  | _, _ => None
  end.

Definition add_intervention (self : Database) (patient_id : Z)
    (intervention_type intervention_date : string) (notes : option string)
    (height_cm weight_kg : option float)
    (assistive_device operator : option string) : result Z * Database :=
  let bmi := bmi_of_add_intervention height_cm weight_kg in
  let s := conn self in
  if has_patient s patient_id then
    let lastrowid := seq_interventions s + 1 in
    let r := {| Intervention.intervention_id := lastrowid;
                Intervention.patient_id := patient_id;
                Intervention.intervention_type := intervention_type;
                Intervention.intervention_date := intervention_date;
                Intervention.notes := notes;
                Intervention.height_cm := bind_real height_cm;
                Intervention.weight_kg := bind_real weight_kg;
                Intervention.assistive_device := assistive_device;
                Intervention.bmi := bind_real bmi;
                Intervention.operator := operator |} in
    (Ok lastrowid,
     with_conn self
       {| patients := patients s;
          exams := exams s;
          exam_attachments := exam_attachments s;
          interventions := interventions s ++ [r];
          intervention_attachments := intervention_attachments s;
          seq_patients := seq_patients s;
          seq_exams := seq_exams s;
          seq_exam_attachments := seq_exam_attachments s;
          seq_interventions := lastrowid;
          seq_intervention_attachments := seq_intervention_attachments s |})
  else (Raise foreign_key_failed, self).

Definition get_intervention (self : Database) (intervention_id : Z)
    : option Intervention.row :=
  head (filter (λ i, Intervention.intervention_id i = intervention_id)
               (interventions (conn self))).

Definition delete_intervention (self : Database) (intervention_id : Z) : Database :=
  let s := conn self in
  let gone :=
    Intervention.intervention_id <$>
      filter (λ i, Intervention.intervention_id i = intervention_id)
             (interventions s) in
  with_conn self
    {| patients := patients s;
       exams := exams s;
       exam_attachments := exam_attachments s;
       interventions :=
         filter (λ i, Intervention.intervention_id i ≠ intervention_id)
                (interventions s);
       intervention_attachments :=
         filter (λ a, InterventionAttachment.intervention_id a ∉ gone)
                (intervention_attachments s);
       seq_patients := seq_patients s;
       seq_exams := seq_exams s;
       seq_exam_attachments := seq_exam_attachments s;
       seq_interventions := seq_interventions s;
       seq_intervention_attachments := seq_intervention_attachments s |}.

(** The BMI block that opens [update_intervention]. *)
Definition bmi_of_update_intervention (height_cm weight_kg : option float)
    : option float :=
  match height_cm, weight_kg with
  | Some h, Some w =>
      if truthy h && truthy w && gt_zero h then
        match q ← truediv h hundred; sq ← pow2 q; truediv w sq with
        | Ok bmi => Some bmi
        | Raise _ => None
        end
      else None
  | _, _ => None
  end.

Definition update_intervention (self : Database) (intervention_id : Z)
    (intervention_type intervention_date : string) (notes : option string)
    (height_cm weight_kg : option float)
    (assistive_device operator : option string) : Database :=
  let bmi := bmi_of_update_intervention height_cm weight_kg in
  let s := conn self in
  let upd (i : Intervention.row) : Intervention.row :=
    if bool_decide (Intervention.intervention_id i = intervention_id) then
      {| Intervention.intervention_id := Intervention.intervention_id i;
         Intervention.patient_id := Intervention.patient_id i;
         Intervention.intervention_type := intervention_type;
         Intervention.intervention_date := intervention_date;
         Intervention.notes := notes;
         Intervention.height_cm := bind_real height_cm;
         Intervention.weight_kg := bind_real weight_kg;
         Intervention.assistive_device := assistive_device;
         Intervention.bmi := bind_real bmi;
         Intervention.operator := operator |}
    else i in
  with_conn self
    {| patients := patients s;
       exams := exams s;
       exam_attachments := exam_attachments s;
       interventions := upd <$> interventions s;
       intervention_attachments := intervention_attachments s;
       seq_patients := seq_patients s;
       seq_exams := seq_exams s;
       seq_exam_attachments := seq_exam_attachments s;
       seq_interventions := seq_interventions s;
       seq_intervention_attachments := seq_intervention_attachments s |}.

Definition add_intervention_attachment (self : Database) (intervention_id : Z)
    (file_path description : string) : result Z * Database :=
  let s := conn self in
  if has_intervention s intervention_id then
    let lastrowid := seq_intervention_attachments s + 1 in
    let r := {| InterventionAttachment.file_id := lastrowid;
                InterventionAttachment.intervention_id := intervention_id;
                InterventionAttachment.file_path := file_path;
                InterventionAttachment.description := Some description |} in
    (Ok lastrowid,
     with_conn self
       {| patients := patients s;
          exams := exams s;
          exam_attachments := exam_attachments s;
          interventions := interventions s;
          intervention_attachments := intervention_attachments s ++ [r];
          seq_patients := seq_patients s;
          seq_exams := seq_exams s;
          seq_exam_attachments := seq_exam_attachments s;
          seq_interventions := seq_interventions s;
          seq_intervention_attachments := lastrowid |})
  else (Raise foreign_key_failed, self).

Definition get_intervention_attachments (self : Database) (intervention_id : Z)
    : list (Z * string * option string) :=
  (λ a, (InterventionAttachment.file_id a, InterventionAttachment.file_path a,
         InterventionAttachment.description a)) <$>
    filter (λ a, InterventionAttachment.intervention_id a = intervention_id)
           (intervention_attachments (conn self)).

Definition delete_intervention_attachment (self : Database) (file_id : Z)
    : Database :=
  let s := conn self in
  with_conn self
    {| patients := patients s;
       exams := exams s;
       exam_attachments := exam_attachments s;
       interventions := interventions s;
       intervention_attachments :=
         filter (λ a, InterventionAttachment.file_id a ≠ file_id)
                (intervention_attachments s);
       seq_patients := seq_patients s;
       seq_exams := seq_exams s;
       seq_exam_attachments := seq_exam_attachments s;
       seq_interventions := seq_interventions s;
       seq_intervention_attachments := seq_intervention_attachments s |}.

(** ** [Database]: patient search *)

(** Truth value of a [str] and of a [str | None]. *)
Definition str_truthy (s : string) : bool :=
  match s with
  | EmptyString => false
  | String _ _ => true
  end.

Definition ostr_truthy (s : option string) : bool :=
  match s with
  | Some v => str_truthy v
  | None => false
  end.

(** SQLite folds the 26 ASCII capitals before it compares in LIKE. *)
Definition to_lower (c : ascii) : ascii :=
  if (("A" <=? c) && (c <=? "Z"))%char
  then ascii_of_N (N_of_ascii c + 32) else c.

(** SQLite's [LIKE] without ESCAPE: [%] stands for any run of characters,
    [_] for exactly one, any other character for itself up to ASCII case. *)
Fixpoint like (pattern : string) : string → bool :=
  match pattern with
  | EmptyString => λ s, negb (str_truthy s)
  | String c pattern' =>
      if Ascii.eqb c "%" then
        fix any_run (s : string) : bool :=
          like pattern' s ||
          match s with
          | EmptyString => false
          | String _ s' => any_run s'
          end
      else if Ascii.eqb c "_" then
        λ s, match s with
             | EmptyString => false
             | String _ s' => like pattern' s'
             end
      else
        λ s, match s with
             | EmptyString => false
             | String d s' => Ascii.eqb (to_lower c) (to_lower d) && like pattern' s'
             end
  end.

(** [column LIKE ?] in a WHERE clause: a NULL column selects nothing. *)
Definition sql_like (column : option string) (pattern : string) : bool :=
  match column with
  | Some v => like pattern v
  | None => false
  end.

Definition search_fields : list string :=
  ["last_name"; "diagnosis"; "patient_code"; "post_number"].

(** The value of the column named [field] in a row of [patients]. *)
Definition column (field : string) (p : Patient.row) : option string :=
  if String.eqb field "last_name" then Some (Patient.last_name p)
  else if String.eqb field "diagnosis" then Patient.diagnosis p
  else if String.eqb field "patient_code" then Patient.patient_code p
  else if String.eqb field "post_number" then Patient.post_number p
  else None.

(** [ORDER BY last_name]: the BINARY collation compares byte by byte. *)
Definition by_last_name (p q : Patient.row) : Prop :=
  String.leb (Patient.last_name p) (Patient.last_name q).

Definition search_patients (self : Database) (filter_text field : string)
    : list Patient.row :=
  let conditions : list (Patient.row → bool) := [] in
  let conditions :=
    if str_truthy filter_text then
      let field :=
        if bool_decide (field ∈ search_fields) then field else "last_name" in
      conditions ++
        [λ p, sql_like (column field p) ("%" +:+ filter_text +:+ "%")]
    else conditions in
  let conditions :=
    match _birth_range self with
    | Some (start, end_) =>
        let conditions :=
          match start with
          | Some v =>
              if str_truthy v
              then conditions ++ [λ p, String.leb v (Patient.birth_date p)]
              else conditions
          | None => conditions
          end in
        match end_ with
        | Some v =>
            if str_truthy v
            then conditions ++ [λ p, String.leb (Patient.birth_date p) v]
            else conditions
        | None => conditions
        end
    | None => conditions
    end in
  merge_sort by_last_name
    (filter (λ p, forallb (λ c, c p) conditions) (patients (conn self))).

Definition set_birth_range (self : Database) (start end_ : option string)
    : Database :=
  {| conn := conn self; db_path := db_path self;
     _birth_range := Some (start, end_) |}.

(** ** Calendar dates ([datetime.strptime] with ["%Y-%m-%d"]) *)

Module Date.

Record t : Type := { year : Z; month : Z; day : Z }.

Definition is_leap (y : Z) : bool :=
  (y mod 4 =? 0) && (negb (y mod 100 =? 0) || (y mod 400 =? 0)).

Definition days_in_month (y m : Z) : Z :=
  if m =? 2 then (if is_leap y then 29 else 28)
  else if (m =? 4) || (m =? 6) || (m =? 9) || (m =? 11) then 30
  else 31.

Definition days_before_year (y : Z) : Z :=
  let y := y - 1 in y * 365 + y / 4 - y / 100 + y / 400.

Definition days_before_month (y m : Z) : Z :=
  nth (Z.to_nat (m - 1))
      [0; 31; 59; 90; 120; 151; 181; 212; 243; 273; 304; 334] 0
  + (if (2 <? m) && is_leap y then 1 else 0).

(** The proleptic Gregorian ordinal; 0001-01-01 is day 1. *)
Definition toordinal (d : t) : Z :=
  days_before_year (year d) + days_before_month (year d) (month d) + day d.

(** The constructor's range checks. *)
Definition make (y m d : Z) : result t :=
  if negb ((1 <=? y) && (y <=? 9999)) then
    Raise (ValueError "year is out of range")
  else if negb ((1 <=? m) && (m <=? 12)) then
    Raise (ValueError "month must be in 1..12")
  else if negb ((1 <=? d) && (d <=? days_in_month y m)) then
    Raise (ValueError "day is out of range for month")
  else Ok {| year := y; month := m; day := d |}.

Definition is_digit (c : ascii) : bool := (("0" <=? c) && (c <=? "9"))%char.

Definition digit (c : ascii) : Z := Z.of_N (N_of_ascii c) - 48.

Definition between (lo hi c : ascii) : bool := ((lo <=? c) && (c <=? hi))%char.

(** The ways the group for [%m], [1[0-2]|0[1-9]|[1-9]], matches at the
    head of [s], in the order the regex engine tries them; each comes
    with the month and the unread rest. *)
Definition month_group (s : string) : list (Z * string) :=
  match s with
  | String a (String b rest) =>
      (if Ascii.eqb a "1" && between "0" "2" b
       then [(10 + digit b, rest)] else []) ++
      (if Ascii.eqb a "0" && between "1" "9" b
       then [(digit b, rest)] else []) ++
      (if between "1" "9" a then [(digit a, String b rest)] else [])
  | String a EmptyString =>
      if between "1" "9" a then [(digit a, EmptyString)] else []
  | EmptyString => []
  end.

(** The same for [%d], [3[01]|[12]\d|0[1-9]|[1-9]| [1-9]]. *)
Definition day_group (s : string) : list (Z * string) :=
  match s with
  | String a (String b rest) =>
      (if Ascii.eqb a "3" && between "0" "1" b
       then [(30 + digit b, rest)] else []) ++
      (if between "1" "2" a && is_digit b
       then [(10 * digit a + digit b, rest)] else []) ++
      (if Ascii.eqb a "0" && between "1" "9" b
       then [(digit b, rest)] else []) ++
      (if between "1" "9" a then [(digit a, String b rest)] else []) ++
      (if Ascii.eqb a " " && between "1" "9" b
       then [(digit b, rest)] else [])
  | String a EmptyString =>
      if between "1" "9" a then [(digit a, EmptyString)] else []
  | EmptyString => []
  end.

(** The first way month, hyphen and day match, as a backtracking match
    finds it. *)
Definition month_day (s : string) : option (Z * Z * string) :=
  head (flat_map (λ '(m, rest),
          match rest with
          | String "-" rest' =>
              (λ '(d, rest''), (m, d, rest'')) <$> day_group rest'
          | _ => []
          end) (month_group s)).

(** [datetime.strptime(s, "%Y-%m-%d")]: the regex must match at the
    start, nothing may be left over, and the fields must make a date. *)
Definition strptime (s : string) : result t :=
  match s with
  | String y1 (String y2 (String y3 (String y4 (String "-" rest)))) =>
      if is_digit y1 && is_digit y2 && is_digit y3 && is_digit y4 then
        match month_day rest with
        | Some (m, d, EmptyString) =>
            make (1000 * digit y1 + 100 * digit y2 + 10 * digit y3 + digit y4)
                 m d
        | Some (_, _, String _ _) =>
            Raise (ValueError "unconverted data remains")
        | None => Raise (ValueError "time data does not match format")
        end
      else Raise (ValueError "time data does not match format")
  | _ => Raise (ValueError "time data does not match format")
  end.

End Date.

(** ** Age at an event ([PatientDetailWindow._calculate_age_at_event]) *)

(** The rational a finite float stands for. *)
Definition to_Q (x : float) : Q :=
  match x with
  | S754_finite s m e =>
      (if s then -1 else 1) * inject_Z (Z.pos m) * Qpower 2 e
  | _ => 0
  end%Q.

(** The float a decimal literal [num/den] denotes: the quotient of two
    exactly representable integers, rounded to nearest. *)
Definition float_literal (num den : Z) : float :=
  SFdiv prec emax (of_Z num) (of_Z den).

(** [x // y] and [x % y] on floats.  Python takes both from the exact
    [fmod], so while operands and results are exactly representable, as
    they are for day counts, [//] is the floor of the exact quotient and
    [%] the exact remainder; the floats are carried as the rationals they
    stand for. *)
Definition floordiv (x y : Q) : Q := inject_Z (Qfloor (x / y)).
Definition fmod (x y : Q) : Q := x - y * inject_Z (Qfloor (x / y)).

(** [int(x)] of an integral value. *)
Definition int (x : Q) : Z := Qfloor x.

Definition days_per_year : Q := Eval vm_compute in to_Q (float_literal 36525 100).
Definition days_per_month : Q := Eval vm_compute in to_Q (float_literal 3044 100).

Definition _calculate_age_at_event (patient_birth_date : option string)
    (event_date_str : string) : string :=
  if negb (ostr_truthy patient_birth_date) || negb (str_truthy event_date_str)
  then ""
  else
    match
      bd ← Date.strptime (default "" patient_birth_date);
      ed ← Date.strptime event_date_str;
      let age_days := Date.toordinal ed - Date.toordinal bd in
      let age_years := int (floordiv (inject_Z age_days) days_per_year) in
      let age_months :=
        int (floordiv (fmod (inject_Z age_days) days_per_year) days_per_month) in
      mret (pretty age_years +:+ "y, " +:+ pretty age_months +:+ "m")
    with
    | Ok s => s
    | Raise _ => ""
    end.

(** ** Paths ([os.path] and [pathlib] on POSIX) *)

Definition has_char (c : ascii) (s : string) : bool :=
  existsb (Ascii.eqb c) (list_ascii_of_string s).

(** [os.path.basename]: what follows the last slash. *)
Fixpoint basename (p : string) : string :=
  match p with
  | EmptyString => EmptyString
  | String c rest =>
      if has_char "/" rest then basename rest
      else if Ascii.eqb c "/" then rest else p
  end.

(** [str.rfind] of one character; [-1] when it does not occur. *)
Fixpoint rfind (c : ascii) (s : string) : Z :=
  match s with
  | EmptyString => -1
  | String d rest =>
      let i := rfind c rest in
      if 0 <=? i then i + 1 else if Ascii.eqb c d then 0 else -1
  end.

Definition slice (s : string) (i j : Z) : string :=
  String.substring (Z.to_nat i) (Z.to_nat (j - i)) s.

Definition len (s : string) : Z := Z.of_nat (String.length s).

(** [os.path.splitext]: the extension starts at the last dot of the last
    component, unless only dots come before it there. *)
Definition splitext (p : string) : string * string :=
  let sepIndex := rfind "/" p in
  let dotIndex := rfind "." p in
  if (sepIndex <? dotIndex)
     && existsb (λ c, negb (Ascii.eqb c "."))
                (list_ascii_of_string (slice p (sepIndex + 1) dotIndex))
  then (slice p 0 dotIndex, slice p dotIndex (len p))
  else (p, "").

(** [PurePath.suffix] and [PurePath.stem] of a path, from its last component. *)
Definition path_suffix (p : string) : string :=
  let name := basename p in
  let i := rfind "." name in
  if (0 <? i) && (i <? len name - 1) then slice name i (len name) else "".

Definition path_stem (p : string) : string :=
  let name := basename p in
  let i := rfind "." name in
  if (0 <? i) && (i <? len name - 1) then slice name 0 i else name.

(** [Path(a) / b] for components that [pathlib] keeps as they are: an
    absolute [b] replaces [a], an empty [b] adds nothing. *)
Definition path_join (a b : string) : string :=
  match b with
  | EmptyString => a
  | String c _ => if Ascii.eqb c "/" then b else a +:+ "/" +:+ b
  end.

(** ** The process's surroundings *)

Inductive file : Type :=
| Blob (data : string)
| SqliteFile (s : store).

Inductive dialog : Type :=
| showinfo (title message : string)
| showwarning (title message : string)
| showerror (title message : string).

(** Calls that the operating system may refuse for reasons of its own
    (a full disk, a missing permission). *)
Inductive syscall : Type :=
| Mkdir (path : string)
| Connect (path : string)
| Backup (path : string)
| Copy (src dst : string).

Record world : Type := {
  files : gmap string file;
  dirs : gset string;
  stdout : list string;
  dialogs : list dialog;
  sleeps : list Q                    (* the arguments of [time.sleep] so far *)
}.

Definition io (A : Type) : Type := world → result A * world.

#[global] Instance io_ret : MRet io := λ A a w, (Ok a, w).
#[global] Instance io_bind : MBind io := λ A B k m w,
  match m w with
  | (Ok a, w') => k a w'
  | (Raise e, w') => (Raise e, w')
  end.

(** [try: body except Exception as e: handler(e)] *)
Definition try_except {A} (body : io A) (handler : exn → io A) : io A := λ w,
  match body w with
  | (Ok a, w') => (Ok a, w')
  | (Raise e, w') => handler e w'
  end.

Definition print (line : string) : io unit := λ w,
  (Ok (), {| files := files w; dirs := dirs w;
             stdout := stdout w ++ [line]; dialogs := dialogs w;
             sleeps := sleeps w |}).

Definition messagebox (d : dialog) : io unit := λ w,
  (Ok (), {| files := files w; dirs := dirs w;
             stdout := stdout w; dialogs := dialogs w ++ [d];
             sleeps := sleeps w |}).

Definition path_exists (w : world) (p : string) : bool :=
  bool_decide (p ∈ dom (files w) ∪ dirs w).

Section Surroundings.

(** The failures the operating system injects. *)
Variable faults : syscall → option exn.

(** [Path(p).mkdir(parents=True, exist_ok=True)] *)
Definition mkdir (p : string) : io unit := λ w,
  match faults (Mkdir p) with
  | Some e => (Raise e, w)
  | None =>
      if bool_decide (p ∈ dom (files w))
      then (Raise (OSError "[Errno 17] File exists"), w)
      else (Ok (), {| files := files w; dirs := {[p]} ∪ dirs w;
                      stdout := stdout w; dialogs := dialogs w;
           sleeps := sleeps w |})
  end.

(** [sqlite3.connect(p)]: a missing file is created empty. *)
Definition sqlite_connect (p : string) : io unit := λ w,
  match faults (Connect p) with
  | Some e => (Raise e, w)
  | None =>
      if bool_decide (p ∈ dirs w)
      then (Raise (OperationalError "unable to open database file"), w)
      else
        match files w !! p with
        | Some _ => (Ok (), w)
        | None => (Ok (), {| files := <[p := SqliteFile empty_store]> (files w);
                             dirs := dirs w;
                             stdout := stdout w; dialogs := dialogs w;
           sleeps := sleeps w |})
        end
  end.

(** [src.backup(dst)]: every page of the destination is replaced. *)
Definition sqlite_backup (src : store) (p : string) : io unit := λ w,
  match faults (Backup p) with
  | Some e => (Raise e, w)
  | None =>
      match files w !! p with
      | Some (Blob _) => (Raise (OperationalError "file is not a database"), w)
      | _ => (Ok (), {| files := <[p := SqliteFile src]> (files w);
                        dirs := dirs w;
                        stdout := stdout w; dialogs := dialogs w;
           sleeps := sleeps w |})
      end
  end.

(** [shutil.copy2(src, dst)] *)
Definition copy2 (src dst : string) : io unit := λ w,
  match faults (Copy src dst) with
  | Some e => (Raise e, w)
  | None =>
      match files w !! src with
      | Some f => (Ok (), {| files := <[dst := f]> (files w); dirs := dirs w;
                             stdout := stdout w; dialogs := dialogs w;
           sleeps := sleeps w |})
      | None =>
          (Raise (OSError "[Errno 2] No such file or directory"), w)
      end
  end.

(** ** [Database.backup_database] *)

Definition digit_char (d : Z) : ascii := ascii_of_N (Z.to_N (48 + d mod 10)).

(** [strftime("%Y%m%d")] *)
Definition strftime_Ymd (d : Date.t) : string :=
  let y := Date.year d in
  let m := Date.month d in
  let dd := Date.day d in
  string_of_list_ascii
    [digit_char (y / 1000); digit_char (y / 100); digit_char (y / 10);
     digit_char y; digit_char (m / 10); digit_char m;
     digit_char (dd / 10); digit_char dd].

Definition backup_name (path : string) (today : Date.t) : string :=
  let base := fst (splitext (basename path)) in
  let date_str := strftime_Ymd today in
  base +:+ "_backup_" +:+ date_str +:+ ".db".

(** The [try] block of [backup_database]; [today] is the date that
    [datetime.now()] returns inside it. *)
Definition backup_try_block (today : Date.t) (self : Database)
    (backup_dir : string) : io unit :=
  mkdir backup_dir;;
  let dest_path := path_join backup_dir (backup_name (db_path self) today) in
  sqlite_connect dest_path;;
  sqlite_backup (conn self) dest_path.

Definition backup_database (today : Date.t) (self : Database)
    (backup_dir : string) : io unit :=
  try_except (backup_try_block today self backup_dir)
             (λ e, print ("Backup Error: " +:+ exn_str e)).

End Surroundings.

(** ** [Database.schedule_daily_backup] *)

Record datetime : Type := {
  date : Date.t;
  second_of_day : Q                  (* since local midnight *)
}.

Definition sleep (seconds : Q) : io unit := λ w,
  (Ok (), {| files := files w; dirs := dirs w; stdout := stdout w;
             dialogs := dialogs w; sleeps := sleeps w ++ [seconds] |}).

(** [max(1, x)] *)
Definition max_1 (x : Q) : Q := if Qle_bool x 1 then 1 else x.

(** [cycles] turns of the body of [backup_loop].  [clock k] is what the
    [k]-th call of [datetime.now()] returns from here on and [faults k]
    says what the operating system refuses during the [k]-th turn. *)
Fixpoint backup_loop (cycles : nat) (faults : nat → syscall → option exn)
    (clock : nat → datetime) (self : Database) (backup_dir : string)
    : io unit :=
  match cycles with
  | O => mret ()
  | S cycles' =>
      let now := clock 0%nat in
      let wait_seconds := (86400 - second_of_day now)%Q in
      sleep (max_1 wait_seconds);;
      backup_database (faults 0%nat) (date (clock 1%nat)) self backup_dir;;
      backup_loop cycles' (λ k, faults (S k)) (λ k, clock (S (S k)))
                  self backup_dir
  end.

(** ** [AttachmentWindowBase.add_attachment] *)

Record AttachmentWindowBase : Type := {
  db : Database;
  event_id : Z;
  event_type : string                (* "Exam" or "Intervention" *)
}.

(** The [while dest_path.exists()] loop, unrolled [fuel] times. *)
Fixpoint next_free (fuel : nat) (w : world) (attachments_dir stem ext : string)
    (dest_path : string) (counter : Z) : option string :=
  if path_exists w dest_path then
    match fuel with
    | O => None
    | S fuel' =>
        next_free fuel' w attachments_dir stem ext
          (path_join attachments_dir (stem +:+ "_" +:+ pretty counter +:+ ext))
          (counter + 1)
    end
  else Some dest_path.

(** The destination of the copy; more turns than the file system has
    entries are never needed. *)
Definition unique_dest (w : world) (attachments_dir name : string)
    : option string :=
  let dest_path := path_join attachments_dir name in
  if path_exists w dest_path then
    next_free (S (size (dom (files w) ∪ dirs w))) w attachments_dir
              (path_stem dest_path) (path_suffix dest_path) dest_path 1
  else Some dest_path.

(** Patient and date of the event the window shows. *)
Definition event_owner (self : AttachmentWindowBase) : option Z * option string :=
  if String.eqb (event_type self) "Exam" then
    match get_exam (db self) (event_id self) with
    | Some rec => (Some (Exam.patient_id rec), Some (Exam.exam_date rec))
    | None => (None, None)
    end
  else
    match get_intervention (db self) (event_id self) with
    | Some rec => (Some (Intervention.patient_id rec),
                   Some (Intervention.intervention_date rec))
    | None => (None, None)
    end.

Definition attachments_dir_of (BASE_DIR : string) (self : AttachmentWindowBase)
    : string :=
  let sub := if String.eqb (event_type self) "Exam"
             then "exams" else "interventions" in
  let '(pid, event_date) := event_owner self in
  let patient_code :=
    match pid with
    | Some pid =>
        match get_patient (db self) pid with
        | Some pat =>
            if ostr_truthy (Patient.patient_code pat)
            then default "" (Patient.patient_code pat) else pretty pid
        | None => pretty pid
        end
    | None => "unknown"
    end in
  let date_part :=
    if ostr_truthy event_date then default "" event_date else "unknown_date" in
  path_join (path_join (path_join (path_join BASE_DIR "attachments") sub)
                       patient_code) date_part.

(** [file_path] is the answer of the file dialog, empty when the user
    cancels.  The result is [None] only if the search for a free name
    does not end. *)
Definition add_attachment (faults : syscall → option exn) (BASE_DIR : string)
    (self : AttachmentWindowBase) (file_path : string) (w : world)
    : option (AttachmentWindowBase * world) :=
  if negb (str_truthy file_path) then Some (self, w)
  else
    let desc := basename file_path in
    let failed (e : exn) (w : world) :=
      Some (self,
            snd (messagebox
                   (showerror "Error" ("Could not attach file: " +:+ exn_str e)) w)) in
    let attachments_dir := attachments_dir_of BASE_DIR self in
    match mkdir faults attachments_dir w with
    | (Raise e, w) => failed e w
    | (Ok _, w) =>
        match unique_dest w attachments_dir (basename file_path) with
        | None => None
        | Some dest_path =>
            match copy2 faults file_path dest_path w with
            | (Raise e, w) => failed e w
            | (Ok _, w) =>
                let inserted :=
                  if String.eqb (event_type self) "Exam"
                  then add_exam_attachment (db self) (event_id self) dest_path desc
                  else add_intervention_attachment
                         (db self) (event_id self) dest_path desc in
                match inserted with
                | (Raise e, _) => failed e w
                | (Ok _, db') =>
                    Some ({| db := db'; event_id := event_id self;
                             event_type := event_type self |},
                          snd (messagebox
                                 (showinfo "Attached" ("File attached: " +:+ desc)) w))
                end
            end
        end
    end.

(** ** [AddPatientWindow.add_patient] *)

(** [str.strip] on ASCII white space. *)
Fixpoint lstrip (s : string) : string :=
  match s with
  | String c rest => if Ascii.is_space c then lstrip rest else s
  | EmptyString => EmptyString
  end.

Definition strip (s : string) : string :=
  String.rev (lstrip (String.rev (lstrip s))).

(** [get_val]: the stripped text of an entry, [None] when nothing is left. *)
Definition get_val (text : string) : option string :=
  let v := strip text in if str_truthy v then Some v else None.

(** What the entries of the form hold when the button is pressed. *)
Record AddPatientForm : Type := {
  f_first_name : string;
  f_last_name : string;
  f_birth_date_var : string;
  f_diagnosis : string;
  f_patient_code : string;
  f_gender_var : string;
  f_address : string;
  f_post_number : string;
  f_city : string;
  f_country : string;
  f_phone : string;
  f_mobile : string;
  f_email : string
}.

(** The handler returns the database, whether the window was destroyed,
    and the dialogs it showed.  [refresh_callback] is the callback the
    window was built with. *)
Definition AddPatientWindow_add_patient
    (refresh_callback : Database → result () * Database)
    (self_db : Database) (entries : AddPatientForm)
    : Database * bool * list dialog :=
  let fname := get_val (f_first_name entries) in
  let lname := get_val (f_last_name entries) in
  let birth := get_val (f_birth_date_var entries) in
  match fname, lname, birth with
  | Some fname, Some lname, Some birth =>
      let diag := get_val (f_diagnosis entries) in
      let patient_id_code := get_val (f_patient_code entries) in
      let gender := get_val (f_gender_var entries) in
      let address := get_val (f_address entries) in
      let post_number := get_val (f_post_number entries) in
      let city := get_val (f_city entries) in
      let country := get_val (f_country entries) in
      let phone := get_val (f_phone entries) in
      let mobile := get_val (f_mobile entries) in
      let email := get_val (f_email entries) in
      let attempt : result () * Database :=
        match add_patient self_db fname lname birth diag gender None None
                patient_id_code address post_number city country
                phone mobile email with
        | (Ok _, db') => refresh_callback db'
        | (Raise e, db') => (Raise e, db')
        end in
      match attempt with
      | (Ok _, db') => (db', true, [])
      | (Raise (IntegrityError _), db') =>
          (db', false,
           [showerror "Save Error"
              ("A patient with the Patient ID '"
               +:+ default "None" patient_id_code
               +:+ "' already exists. Please use a unique ID.")])
      | (Raise e, db') =>
          (db', false,
           [showerror "Error" ("Could not add patient: " +:+ exn_str e)])
      end
  | _, _, _ =>
      (self_db, false,
       [showwarning "Missing Required Data"
          "First Name, Last Name, and Birth Date are required."])
  end.


(** ** [Database]: the lists of one patient *)

(** [ORDER BY exam_date DESC] and [ORDER BY intervention_date DESC] *)
Definition by_exam_date_desc (e1 e2 : Exam.row) : Prop :=
  String.le (Exam.exam_date e2) (Exam.exam_date e1).

Definition by_intervention_date_desc (i1 i2 : Intervention.row) : Prop :=
  String.le (Intervention.intervention_date i2) (Intervention.intervention_date i1).

Definition get_exams (self : Database) (patient_id : Z) : list Exam.row :=
  merge_sort by_exam_date_desc
    (filter (λ e, Exam.patient_id e = patient_id) (exams (conn self))).

Definition get_interventions (self : Database) (patient_id : Z)
    : list Intervention.row :=
  merge_sort by_intervention_date_desc
    (filter (λ i, Intervention.patient_id i = patient_id)
            (interventions (conn self))).

(** ** [PatientDetailWindow]: the lists on screen *)

Record PatientDetailWindow : Type := {
  pd_db : Database;
  pd_patient_id : Z;
  patient_birth_date : option string
}.

(** [__init__]: the birth date is column 4 of the patient's row. *)
Definition PatientDetailWindow_init (db : Database) (patient_id : Z)
    : PatientDetailWindow :=
  {| pd_db := db; pd_patient_id := patient_id;
     patient_birth_date := Patient.birth_date <$> get_patient db patient_id |}.

(** [s.split("\n")[0]] *)
Fixpoint first_line (s : string) : string :=
  match s with
  | EmptyString => EmptyString
  | String c rest =>
      if Ascii.eqb c "010" then EmptyString else String c (first_line rest)
  end.

(** The [notes_preview] of [refresh_exams] and [refresh_interventions]:
    [(notes.split("\n")[0] if notes else "")[:50]
     + ("..." if notes and len(notes) > 50 else "")] *)
Definition notes_preview (notes : option string) : string :=
  slice (if ostr_truthy notes then first_line (default "" notes) else "") 0 50
  +:+ (if ostr_truthy notes && (50 <? len (default "" notes)) then "..." else "").

(** The one of [refresh_timeline], on [notes if notes else ""]. *)
Definition timeline_notes_preview (notes : string) : string :=
  slice (first_line notes) 0 50 +:+ (if 50 <? len notes then "..." else "").

(** An entry of [events] in [refresh_timeline]. *)
Record timeline_event : Type := {
  ev_date : string;
  ev_label : string;
  ev_id : Z;
  ev_description : string;
  ev_notes : string;
  ev_person : string
}.

Definition exam_event (e : Exam.row) : timeline_event :=
  {| ev_date := Exam.exam_date e; ev_label := "Exam";
     ev_id := Exam.exam_id e; ev_description := Exam.exam_type e;
     ev_notes := if ostr_truthy (Exam.notes e)
                 then default "" (Exam.notes e) else "";
     ev_person := if ostr_truthy (Exam.examiner e)
                  then default "" (Exam.examiner e) else "" |}.

Definition intervention_event (i : Intervention.row) : timeline_event :=
  {| ev_date := Intervention.intervention_date i; ev_label := "Intervention";
     ev_id := Intervention.intervention_id i;
     ev_description := Intervention.intervention_type i;
     ev_notes := if ostr_truthy (Intervention.notes i)
                 then default "" (Intervention.notes i) else "";
     ev_person := if ostr_truthy (Intervention.operator i)
                  then default "" (Intervention.operator i) else "" |}.

(** [list.sort(key=..., reverse=True)] is stable: of two entries with
    the same key the one that came first stays first. *)
Fixpoint insert_desc (x : timeline_event) (l : list timeline_event)
    : list timeline_event :=
  match l with
  | [] => [x]
  | y :: l' =>
      if String.leb (ev_date x) (ev_date y) then y :: insert_desc x l'
      else x :: y :: l'
  end.

Definition sort_by_date_desc (events : list timeline_event)
    : list timeline_event :=
  foldl (λ sorted x, insert_desc x sorted) [] events.

Definition timeline_events (self : PatientDetailWindow) : list timeline_event :=
  sort_by_date_desc
    ((exam_event <$> get_exams (pd_db self) (pd_patient_id self)) ++
     (intervention_event <$> get_interventions (pd_db self) (pd_patient_id self))).

(** The item identifier of a timeline row, [f"{event_label}_{event_id}"]. *)
Definition timeline_iid (ev : timeline_event) : string :=
  ev_label ev +:+ "_" +:+ pretty (ev_id ev).

(** A row of the timeline tree: the identifier and the six values. *)
Definition timeline_row (self : PatientDetailWindow) (ev : timeline_event)
    : string * (string * string * string * string * string * string) :=
  (timeline_iid ev,
   (ev_date ev, _calculate_age_at_event (patient_birth_date self) (ev_date ev),
    ev_label ev, ev_description ev, ev_person ev,
    timeline_notes_preview (ev_notes ev))).

(** [refresh_timeline]: the rows in the order they are inserted, and
    [timeline_event_map]. *)
Definition refresh_timeline (self : PatientDetailWindow)
    : list (string * (string * string * string * string * string * string))
      * gmap string (string * Z) :=
  let events := timeline_events self in
  (timeline_row self <$> events,
   foldl (λ m ev, <[timeline_iid ev := (ev_label ev, ev_id ev)]> m) ∅ events).

(** ** [AttachmentWindowBase.delete_attachment] *)

(** [os.remove(path)]; [fault] is what the operating system refuses. *)
Definition os_remove (fault : option exn) (path : string) : io unit := λ w,
  match fault with
  | Some e => (Raise e, w)
  | None =>
      match files w !! path with
      | Some _ => (Ok (), {| files := delete path (files w); dirs := dirs w;
                             stdout := stdout w; dialogs := dialogs w;
                             sleeps := sleeps w |})
      | None => (Raise (OSError "[Errno 21] Is a directory"), w)
      end
  end.

(** [selection] is the selected item, if any; [desc] and [path] are the
    values of its row; [confirmed] is the answer to the question. *)
Definition delete_attachment (remove_fault : option exn)
    (self : AttachmentWindowBase) (selection : option Z)
    (desc path : string) (confirmed : bool) (w : world)
    : AttachmentWindowBase * world :=
  match selection with
  | None =>
      (self, snd (messagebox
                    (showwarning "No Selection"
                       "Please select an attachment to delete.") w))
  | Some file_id =>
      if negb confirmed then (self, w)
      else
        let db' :=
          if String.eqb (event_type self) "Exam"
          then delete_exam_attachment (db self) file_id
          else delete_intervention_attachment (db self) file_id in
        let w :=
          if str_truthy path && path_exists w path then
            match os_remove remove_fault path w with
            | (Ok _, w') => w'
            | (Raise _, w') => w'
            end
          else w in
        ({| db := db'; event_id := event_id self;
            event_type := event_type self |}, w)
  end.

(** ** [DateEntry._update_var] *)

(** Digits with single underscores between them, as [int] reads them. *)
Fixpoint digits_value (acc : Z) (after_digit : bool) (s : string) : option Z :=
  match s with
  | EmptyString => if after_digit then Some acc else None
  | String c rest =>
      if Date.is_digit c then digits_value (10 * acc + Date.digit c) true rest
      else if Ascii.eqb c "_" && after_digit then
        match rest with
        | String d _ => if Date.is_digit d then digits_value acc false rest else None
        | EmptyString => None
        end
      else None
  end.

(** [int(s)] for a [str]: white space around, a sign, decimal digits. *)
Definition py_int (s : string) : result Z :=
  let bad := Raise (ValueError "invalid literal for int() with base 10") in
  match strip s with
  | String "-" rest => from_option (λ v, Ok (- v)) bad (digits_value 0 false rest)
  | String "+" rest => from_option Ok bad (digits_value 0 false rest)
  | rest => from_option Ok bad (digits_value 0 false rest)
  end.

(** [datetime(y, m, d)]: arguments beyond a C [int] overflow, the rest is
    range-checked. *)
Definition datetime_new (y m d : Z) : result Date.t :=
  let fits (z : Z) := (- 2147483648 <=? z) && (z <=? 2147483647) in
  if fits y && fits m && fits d then Date.make y m d
  else Raise (OverflowError "signed integer is greater than maximum").

(** [f"{z:0{width}d}"] *)
Definition format_0d (width : nat) (z : Z) : string :=
  let zeros (n : nat) (s : string) :=
    string_of_list_ascii (replicate (n - String.length s) "0"%char) +:+ s in
  if z <? 0 then "-" +:+ zeros (width - 1)%nat (pretty (- z))
  else zeros width (pretty z).

(** The value [_update_var] gives the widget's variable, from the texts
    of the three boxes; an exception other than [ValueError] escapes. *)
Definition _update_var (y m d : string) : result string :=
  if str_truthy y && str_truthy m && str_truthy d then
    match
      yy ← py_int y; mm ← py_int m; dd ← py_int d;
      _ ← datetime_new yy mm dd;
      yy ← py_int y; mm ← py_int m; dd ← py_int d;
      mret (format_0d 4 yy +:+ "-" +:+ format_0d 2 mm +:+ "-" +:+ format_0d 2 dd)
    with
    | Ok v => Ok v
    | Raise (ValueError _) => Ok ""
    | Raise e => Raise e
    end
  else Ok "".

(** ** [EditPatientWindow.save] *)


(** ** [DateEntry]: the three boxes *)

(** The variables of the widget and the [values] of the day box, which
    read back as the strings they were set to. *)
Record DateEntry : Type := {
  var : string;
  year_var : string;
  month_var : string;
  day_var : string;
  day_values : list string
}.

(** The number of days that [calendar.monthrange] returns (CPython 3.8
    and later: any year is accepted). *)
Definition monthrange (year month : Z) : result Z :=
  if (1 <=? month) && (month <=? 12) then Ok (Date.days_in_month year month)
  else Raise (ValueError "bad month number; must be 1-12").

Definition _update_day_options (self : DateEntry) : DateEntry :=
  let num_days :=
    match year ← py_int (year_var self);
          month ← py_int (month_var self);
          monthrange year month with
    | Ok n => n
    | Raise _ => 31
    end in
  let days := format_0d 2 <$> seqZ 1 num_days in
  let current_day := day_var self in
  {| var := var self; year_var := year_var self; month_var := month_var self;
     day_var := if bool_decide (current_day ∈ days) then current_day
                else match days with d :: _ => d | [] => "" end;
     day_values := days |}.

(** [if day_str in values: ... elif values: ... else: ...] *)
Definition choose_day (self : DateEntry) (day_str : string) : DateEntry :=
  {| var := var self; year_var := year_var self; month_var := month_var self;
     day_var := if bool_decide (day_str ∈ day_values self) then day_str
                else match day_values self with d :: _ => d | [] => "" end;
     day_values := day_values self |}.

(** [_update_var] on the widget. *)
Definition DateEntry_update_var (self : DateEntry) : result DateEntry :=
  v ← _update_var (year_var self) (month_var self) (day_var self);
  mret {| var := v; year_var := year_var self; month_var := month_var self;
          day_var := day_var self; day_values := day_values self |}.

(** [_on_change]; [year_or_month] says whether the event comes from the
    year box or the month box. *)
Definition _on_change (year_or_month : bool) (self : DateEntry)
    : result DateEntry :=
  DateEntry_update_var
    (if year_or_month then
       let current_day_str := day_var self in
       choose_day (_update_day_options self) current_day_str
     else self).

Definition DateEntry_get (self : DateEntry) : string := var self.

(** [set]: what the [try] block raises clears the boxes, and the
    [finally] clause publishes what they hold. *)
Definition DateEntry_set (self : DateEntry) (value : string)
    : result DateEntry :=
  DateEntry_update_var
    match Date.strptime value with
    | Ok dt =>
        choose_day
          (_update_day_options
             {| var := var self; year_var := pretty (Date.year dt);
                month_var := format_0d 2 (Date.month dt);
                day_var := day_var self; day_values := day_values self |})
          (format_0d 2 (Date.day dt))
    | Raise _ =>
        {| var := var self; year_var := ""; month_var := ""; day_var := "";
           day_values := [] |}
    end.

(** * Specifications

    What the properties below are stated with: the conditions of the
    specification, the databases of the examples and the invariants. *)



(** The patient of the example scenario and the database that holds her. *)
Definition jane_db : Database :=
  snd (add_patient (Database_init "health_records.db")
         "Jane" "Doe" "1990-05-01" None None None None None None None None
         None None None None).

(** The exam of the example scenario: 170 cm and 65 kg. *)
Definition bmi_170_65 : float := S754_finite false 6330752071346935 (-48).


(** Every child row has its parent: what [PRAGMA foreign_keys = ON]
    maintains. *)
Definition referential_integrity (s : store) : Prop :=
  Forall (λ e, Exam.patient_id e ∈ Patient.patient_id <$> patients s)
         (exams s) ∧
  Forall (λ i, Intervention.patient_id i ∈ Patient.patient_id <$> patients s)
         (interventions s) ∧
  Forall (λ a, ExamAttachment.exam_id a ∈ Exam.exam_id <$> exams s)
         (exam_attachments s) ∧
  Forall (λ a, InterventionAttachment.intervention_id a
                 ∈ Intervention.intervention_id <$> interventions s)
         (intervention_attachments s).

(** An attachment belongs to a patient through its exam or intervention. *)
Definition exam_attachment_of (s : store) (pid : Z) (a : ExamAttachment.row)
    : Prop :=
  ∃ e, e ∈ exams s ∧ Exam.exam_id e = ExamAttachment.exam_id a ∧
       Exam.patient_id e = pid.

Definition intervention_attachment_of (s : store) (pid : Z)
    (a : InterventionAttachment.row) : Prop :=
  ∃ i, i ∈ interventions s ∧
       Intervention.intervention_id i = InterventionAttachment.intervention_id a ∧
       Intervention.patient_id i = pid.

(** No row of the four child tables belongs to the patient. *)
Definition nothing_left_of (before after : store) (pid : Z) : Prop :=
  (∀ e, e ∈ exams after → Exam.patient_id e ≠ pid) ∧
  (∀ i, i ∈ interventions after → Intervention.patient_id i ≠ pid) ∧
  (∀ a, a ∈ exam_attachments after → ¬ exam_attachment_of before pid a) ∧
  (∀ a, a ∈ intervention_attachments after →
        ¬ intervention_attachment_of before pid a).

Inductive api_step (self : Database) : Database → Prop :=
| step_add_patient fn ln bd dg g h ad pc a pn c co ph mo em :
    api_step self (snd (add_patient self fn ln bd dg g h ad pc a pn c co ph mo em))
| step_update_patient pid fn ln bd dg g pc a pn c co ph mo em :
    api_step self (snd (update_patient self pid fn ln bd dg g pc a pn c co ph mo em))
| step_delete_patient pid :
    api_step self (delete_patient self pid)
| step_add_exam pid ty dt notes h w dev ex :
    api_step self (snd (add_exam self pid ty dt notes h w dev ex))
| step_update_exam eid ty dt notes h w dev ex :
    api_step self (update_exam self eid ty dt notes h w dev ex)
| step_delete_exam eid :
    api_step self (delete_exam self eid)
| step_add_exam_attachment eid path desc :
    api_step self (snd (add_exam_attachment self eid path desc))
| step_delete_exam_attachment fid :
    api_step self (delete_exam_attachment self fid)
| step_add_intervention pid ty dt notes h w dev op :
    api_step self (snd (add_intervention self pid ty dt notes h w dev op))
| step_update_intervention iid ty dt notes h w dev op :
    api_step self (update_intervention self iid ty dt notes h w dev op)
| step_delete_intervention iid :
    api_step self (delete_intervention self iid)
| step_add_intervention_attachment iid path desc :
    api_step self (snd (add_intervention_attachment self iid path desc))
| step_delete_intervention_attachment fid :
    api_step self (delete_intervention_attachment self fid)
| step_set_birth_range start end_ :
    api_step self (set_birth_range self start end_).

Inductive reachable : Database → Prop :=
| reach_init path : reachable (Database_init path)
| reach_step self self' : reachable self → api_step self self' → reachable self'.

(** A patient with an exam, an intervention and an attachment on each,
    next to a second patient with an exam of his own. *)
Definition clinic_db : Database :=
  let d := jane_db in
  let d := snd (add_patient d "John" "Roe" "1985-11-23" (Some "ACL tear") None
                  None None (Some "P-002") None None None None None None None) in
  let d := snd (add_exam d 1 "Gait Assessment" "2024-01-10" None
                  (Some (of_Z 170)) (Some (of_Z 65)) None None) in
  let d := snd (add_intervention d 1 "Orthosis" "2024-02-01" None
                  None None None None) in
  let d := snd (add_exam d 2 "Gait Assessment" "2024-03-05" None
                  None None None None) in
  let d := snd (add_exam_attachment d 1 "attachments/exams/1/2024-01-10/a.pdf"
                  "a.pdf") in
  let d := snd (add_intervention_attachment d 1
                  "attachments/interventions/1/2024-02-01/b.pdf" "b.pdf") in
  snd (add_exam_attachment d 2 "attachments/exams/P-002/2024-03-05/c.pdf" "c.pdf").

(** A form that asks for a second patient with Jane's code. *)
Definition coded_db : Database :=
  snd (add_patient (Database_init "health_records.db")
         "Jane" "Doe" "1990-05-01" None None None None (Some "P-001") None None
         None None None None None).










(** The age as the specification words it, from the number of days:
    whole years of 365.25 days, then whole months of 30.44 days in what
    is left. *)
Definition age_as_specified (d : Z) : string :=
  let y := Qfloor (inject_Z d / (36525 # 100)) in
  let left := (inject_Z d - (36525 # 100) * inject_Z y)%Q in
  let m := Qfloor (left / (3044 # 100)) in
  pretty y +:+ "y, " +:+ pretty m +:+ "m".

Definition no_faults : syscall → option exn := λ _, None.

Definition fresh_world : world :=
  {| files := ∅; dirs := ∅; stdout := []; dialogs := []; sleeps := [] |}.

Definition jan_9 : Date.t := {| Date.year := 2024; Date.month := 1; Date.day := 9 |}.

(** The names the loop tries are pairwise different. *)
Definition candidate (attachments_dir stem ext : string) (counter : Z) : string :=
  path_join attachments_dir (stem +:+ "_" +:+ pretty counter +:+ ext).

Definition exam_window : AttachmentWindowBase :=
  {| db := clinic_db; event_id := 1; event_type := "Exam" |}.

(** The keys of a table: ascending in rowid order, positive, and none
    beyond the AUTOINCREMENT counter. *)
Definition keys_ok (ids : list Z) (seq : Z) : Prop :=
  0 ≤ seq ∧ StronglySorted Z.lt ids ∧ Forall (λ i, 1 ≤ i ≤ seq) ids.

Definition well_keyed (s : store) : Prop :=
  keys_ok (Patient.patient_id <$> patients s) (seq_patients s) ∧
  keys_ok (Exam.exam_id <$> exams s) (seq_exams s) ∧
  keys_ok (ExamAttachment.file_id <$> exam_attachments s)
          (seq_exam_attachments s) ∧
  keys_ok (Intervention.intervention_id <$> interventions s)
          (seq_interventions s) ∧
  keys_ok (InterventionAttachment.file_id <$> intervention_attachments s)
          (seq_intervention_attachments s).

(** The codes in use, NULLs left out. *)
Definition codes (s : store) : list string :=
  omap Patient.patient_code (patients s).

(** The four characters of a formatted year read back as the year. *)
Definition year_reads_back (y : Z) : bool :=
  match format_0d 4 y with
  | String a (String b (String c (String e EmptyString))) =>
      Date.is_digit a && Date.is_digit b && Date.is_digit c && Date.is_digit e
      && (1000 * Date.digit a + 100 * Date.digit b + 10 * Date.digit c
          + Date.digit e =? y)
  | _ => false
  end.

(** Month and day, formatted, read back as month and day. *)
Definition month_day_reads_back (md : Z * Z) : bool :=
  match Date.month_day (format_0d 2 md.1 +:+ "-" +:+ format_0d 2 md.2) with
  | Some (m, d, EmptyString) => (m =? md.1) && (d =? md.2)
  | _ => false
  end.

(** The paths the window's table holds, in rowid order. *)
Definition attachment_paths (self : AttachmentWindowBase) : list string :=
  if String.eqb (event_type self) "Exam"
  then ExamAttachment.file_path <$> exam_attachments (conn (db self))
  else InterventionAttachment.file_path
         <$> intervention_attachments (conn (db self)).

(** The keys of the rows of the window's table. *)
Definition attachment_ids (self : AttachmentWindowBase) : list Z :=
  if String.eqb (event_type self) "Exam"
  then ExamAttachment.file_id <$> exam_attachments (conn (db self))
  else InterventionAttachment.file_id
         <$> intervention_attachments (conn (db self)).

Definition scan_world : world :=
  {| files := {[ "/home/user/scan.pdf" := Blob "%PDF-1.7" ]};
     dirs := ∅; stdout := []; dialogs := []; sleeps := [] |}.

Definition stored_window : AttachmentWindowBase :=
  {| db := snd (add_exam_attachment clinic_db 1
                  "/opt/gait/attachments/exams/1/2024-01-10/scan.pdf"
                  "scan.pdf");
     event_id := 1; event_type := "Exam" |}.

Definition stored_world : world :=
  {| files := {[ "/opt/gait/attachments/exams/1/2024-01-10/scan.pdf"
                   := Blob "%PDF-1.7" ]};
     dirs := ∅; stdout := []; dialogs := []; sleeps := [] |}.

(** The dates a clock of this millennium shows. *)
Definition valid_date (d : Date.t) : Prop :=
  1000 ≤ Date.year d ≤ 9999 ∧ 1 ≤ Date.month d ≤ 12 ∧ 1 ≤ Date.day d ≤ 31.

(** Newest first. *)
Definition newest_first (a b : timeline_event) : Prop :=
  String.le (ev_date b) (ev_date a).

(** The events of a patient before they are sorted: the exams, then the
    interventions. *)
Definition events_of (self : PatientDetailWindow) : list timeline_event :=
  (exam_event <$> get_exams (pd_db self) (pd_patient_id self)) ++
  (intervention_event
     <$> get_interventions (pd_db self) (pd_patient_id self)).

(** The row [update_patient] leaves in place of [old]. *)
Definition edited (old : Patient.row)
    (first_name last_name birth_date : string)
    (diagnosis gender patient_code address post_number city country
       phone mobile email : option string) : Patient.row :=
  {| Patient.patient_id := Patient.patient_id old;
     Patient.patient_code := patient_code;
     Patient.first_name := first_name;
     Patient.last_name := last_name;
     Patient.birth_date := birth_date;
     Patient.diagnosis := diagnosis;
     Patient.gender := gender;
     Patient.height := Patient.height old;
     Patient.assistive_device := Patient.assistive_device old;
     Patient.address := address;
     Patient.post_number := post_number;
     Patient.city := city;
     Patient.country := country;
     Patient.phone := phone;
     Patient.mobile := mobile;
     Patient.email := email |}.

Definition coded_jane : Patient.row :=
  {| Patient.patient_id := 1; Patient.patient_code := Some "P-001";
     Patient.first_name := "Jane"; Patient.last_name := "Doe";
     Patient.birth_date := "1990-05-01"; Patient.diagnosis := None;
     Patient.gender := None; Patient.height := None;
     Patient.assistive_device := None; Patient.address := None;
     Patient.post_number := None; Patient.city := None;
     Patient.country := None; Patient.phone := None;
     Patient.mobile := None; Patient.email := None |}.




Definition noon : datetime := {| date := jan_9; second_of_day := 43200 |}.

Definition reads_back_as (s : string) (z : Z) : bool :=
  str_truthy s && match py_int s with Ok v => v =? z | Raise _ => false end.

Definition empty_entry : DateEntry :=
  {| var := ""; year_var := ""; month_var := ""; day_var := "";
     day_values := [] |}.

(** The last day of January is chosen, then February. *)
Definition feb_chosen : DateEntry :=
  {| var := "2024-01-31"; year_var := "2024"; month_var := "02";
     day_var := "31"; day_values := format_0d 2 <$> seqZ 1 31 |}.

(** The last day of January is chosen. *)
Definition jan_31 : DateEntry :=
  {| var := "2024-01-31"; year_var := "2024"; month_var := "01";
     day_var := "31"; day_values := format_0d 2 <$> seqZ 1 31 |}.

(** * Properties *)

(** ** Body mass index *)



Lemma gt_zero_cases h :
  gt_zero h = true →
  h = S754_infinity false ∨ ∃ m e, h = S754_finite false m e.
Proof. destruct h as [[]|[]| |[] m e]; try done; eauto. Qed.







(** The stored value of the scenario lies between 22.49 and 22.50. *)
Example scenario_bmi :
  bind_real (bmi_of_add_exam (Some (of_Z 170)) (Some (of_Z 65)))
    = Some bmi_170_65 ∧
  (2249 # 100 < to_Q bmi_170_65 < 2250 # 100)%Q.
Proof. split; [reflexivity|]. by vm_compute. Qed.

(** A height whose square leaves the binary64 range, and one whose
    square vanishes: no BMI either time. *)
Example bmi_out_of_range :
  bmi_of_add_exam (Some (binary_normalize prec emax 1 600 false))
                  (Some (of_Z 65)) = None ∧
  bmi_of_add_exam (Some (binary_normalize prec emax 1 (-600) false))
                  (Some (of_Z 65)) = None.
Proof. split; reflexivity. Qed.


(** C10.  The BMI blocks of [add_exam], [add_intervention], [update_exam]
    and [update_intervention] are one and the same function of height and
    weight. *)
Theorem bmi_blocks_agree (height_cm weight_kg : option float) :
  bmi_of_add_intervention height_cm weight_kg
    = bmi_of_add_exam height_cm weight_kg ∧
  bmi_of_update_exam height_cm weight_kg
    = bmi_of_add_exam height_cm weight_kg ∧
  bmi_of_update_intervention height_cm weight_kg
    = bmi_of_add_exam height_cm weight_kg.
Proof. done. Qed.

(** ** Foreign keys and the cascade of [delete_patient] *)

#[global] Instance referential_integrity_dec s : Decision (referential_integrity s).
Proof. unfold referential_integrity. apply _. Defined.

Lemma integrity_forall s :
  referential_integrity s ↔
  (∀ e, e ∈ exams s →
        Exam.patient_id e ∈ Patient.patient_id <$> patients s) ∧
  (∀ i, i ∈ interventions s →
        Intervention.patient_id i ∈ Patient.patient_id <$> patients s) ∧
  (∀ a, a ∈ exam_attachments s →
        ExamAttachment.exam_id a ∈ Exam.exam_id <$> exams s) ∧
  (∀ a, a ∈ intervention_attachments s →
        InterventionAttachment.intervention_id a
          ∈ Intervention.intervention_id <$> interventions s).
Proof. unfold referential_integrity. by rewrite !Forall_forall. Qed.

Lemma gone_patient_ids s pid x :
  x ∈ Patient.patient_id <$>
        filter (λ p, Patient.patient_id p = pid) (patients s) ↔
  x = pid ∧ pid ∈ Patient.patient_id <$> patients s.
Proof.
  rewrite !list_elem_of_fmap. split.
  - intros (p & -> & [Hp Hin]%list_elem_of_filter). split; [done|].
    exists p. by rewrite Hp.
  - intros [-> (p & -> & Hin)]. exists p. split; [done|].
    by apply list_elem_of_filter.
Qed.

Lemma delete_patient_nothing_left self pid :
  referential_integrity (conn self) →
  nothing_left_of (conn self) (conn (delete_patient self pid)) pid.
Proof.
  intros (He & Hi & _ & _)%integrity_forall.
  unfold nothing_left_of, delete_patient. simpl.
  repeat split.
  - intros e [Hgone Hin]%list_elem_of_filter Hpid. apply Hgone.
    apply gone_patient_ids. split; [done|]. rewrite <- Hpid. by apply He.
  - intros i [Hgone Hin]%list_elem_of_filter Hpid. apply Hgone.
    apply gone_patient_ids. split; [done|]. rewrite <- Hpid. by apply Hi.
  - intros a [Hgone Hin]%list_elem_of_filter (e & He_in & Hid & Hpid).
    apply Hgone. apply list_elem_of_fmap. exists e. split; [done|].
    apply list_elem_of_filter. split; [|done].
    apply gone_patient_ids. split; [done|]. rewrite <- Hpid. by apply He.
  - intros a [Hgone Hin]%list_elem_of_filter (i & Hi_in & Hid & Hpid).
    apply Hgone. apply list_elem_of_fmap. exists i. split; [done|].
    apply list_elem_of_filter. split; [|done].
    apply gone_patient_ids. split; [done|]. rewrite <- Hpid. by apply Hi.
Qed.

Lemma delete_patient_integrity self pid :
  referential_integrity (conn self) →
  referential_integrity (conn (delete_patient self pid)).
Proof.
  intros (He & Hi & Hea & Hia)%integrity_forall. apply integrity_forall.
  unfold delete_patient. simpl. repeat split.
  - intros e [Hgone Hin]%list_elem_of_filter.
    pose proof (He e Hin) as (p & Hp & Hp_in)%list_elem_of_fmap.
    apply list_elem_of_fmap. exists p. split; [done|].
    apply list_elem_of_filter. split; [|done]. intros Heq. apply Hgone.
    apply gone_patient_ids. rewrite Hp, Heq. split; [done|].
    apply list_elem_of_fmap. eauto.
  - intros i [Hgone Hin]%list_elem_of_filter.
    pose proof (Hi i Hin) as (p & Hp & Hp_in)%list_elem_of_fmap.
    apply list_elem_of_fmap. exists p. split; [done|].
    apply list_elem_of_filter. split; [|done]. intros Heq. apply Hgone.
    apply gone_patient_ids. rewrite Hp, Heq. split; [done|].
    apply list_elem_of_fmap. eauto.
  - intros a [Hgone Hin]%list_elem_of_filter.
    pose proof (Hea a Hin) as (e & Hid & He_in)%list_elem_of_fmap.
    apply list_elem_of_fmap. exists e. split; [done|].
    apply list_elem_of_filter. split; [|done]. intros Hpat. apply Hgone.
    apply list_elem_of_fmap. exists e. split; [done|].
    by apply list_elem_of_filter.
  - intros a [Hgone Hin]%list_elem_of_filter.
    pose proof (Hia a Hin) as (i & Hid & Hi_in)%list_elem_of_fmap.
    apply list_elem_of_fmap. exists i. split; [done|].
    apply list_elem_of_filter. split; [|done]. intros Hpat. apply Hgone.
    apply list_elem_of_fmap. exists i. split; [done|].
    by apply list_elem_of_filter.
Qed.

(** C2.  On a store whose foreign keys hold, [delete_patient] leaves no
    exam, intervention or attachment that belonged to the patient, and
    the foreign keys still hold afterwards: no row is orphaned. *)
Theorem delete_patient_cascades (self : Database) (patient_id : Z) :
  referential_integrity (conn self) →
  (∀ p, p ∈ patients (conn (delete_patient self patient_id)) →
        Patient.patient_id p ≠ patient_id) ∧
  nothing_left_of (conn self) (conn (delete_patient self patient_id)) patient_id ∧
  referential_integrity (conn (delete_patient self patient_id)).
Proof.
  intros Hfk. split; [|split].
  - unfold delete_patient. simpl. by intros p [? _]%list_elem_of_filter.
  - by apply delete_patient_nothing_left.
  - by apply delete_patient_integrity.
Qed.

(** *** The foreign keys hold in every database the methods can build *)

Lemma fmap_keeps_key {A K} (key : A → K) (upd : A → A) (l : list A) :
  (∀ x, key (upd x) = key x) → key <$> (upd <$> l) = key <$> l.
Proof.
  intros Hkey. rewrite <- list_fmap_compose. apply list_fmap_ext.
  intros ? x _. apply Hkey.
Qed.

Lemma elem_of_fmap_snoc {A K} (key : A → K) (l : list A) (x : A) (k : K) :
  k ∈ key <$> l → k ∈ key <$> (l ++ [x]).
Proof. rewrite fmap_app, elem_of_app. auto. Qed.

Lemma api_step_integrity self self' :
  api_step self self' →
  referential_integrity (conn self) → referential_integrity (conn self').
Proof.
  intros Hstep (He & Hi & Hea & Hia)%integrity_forall.
  destruct Hstep; apply integrity_forall.
  - unfold add_patient. destruct (code_in_use _ _); [done|]. simpl.
    repeat split; simpl; auto using elem_of_fmap_snoc.
  - unfold update_patient. destruct (filter _ _); [done|].
    destruct (code_in_use _ _); [done|]. simpl.
    repeat split; simpl; auto.
    + intros e Hin. rewrite fmap_keeps_key; [auto|].
      intros x. by case_bool_decide.
    + intros i Hin. rewrite fmap_keeps_key; [auto|].
      intros x. by case_bool_decide.
  - apply integrity_forall, delete_patient_integrity.
    by apply integrity_forall.
  - unfold add_exam, has_patient. case_bool_decide as Hpid; [|done]. simpl.
    repeat split; simpl; auto using elem_of_fmap_snoc.
    intros e [Hin| ->%list_elem_of_singleton]%elem_of_app; auto.
  - unfold update_exam. repeat split; simpl; auto.
    + intros e' (e & -> & Hin)%list_elem_of_fmap.
      case_bool_decide; simpl; auto.
    + intros a Hin. rewrite fmap_keeps_key; [auto|].
      intros x. by case_bool_decide.
  - unfold delete_exam. repeat split; simpl; auto.
    + intros e [_ Hin]%list_elem_of_filter. auto.
    + intros a [Hgone Hin]%list_elem_of_filter.
      pose proof (Hea a Hin) as (e & Hid & He_in)%list_elem_of_fmap.
      apply list_elem_of_fmap. exists e. split; [done|].
      apply list_elem_of_filter. split; [|done]. intros Heq. apply Hgone.
      apply list_elem_of_fmap. exists e. split; [done|].
      by apply list_elem_of_filter.
  - unfold add_exam_attachment, has_exam. case_bool_decide as Heid; [|done].
    simpl. repeat split; simpl; auto.
    intros a [Hin| ->%list_elem_of_singleton]%elem_of_app; auto.
  - unfold delete_exam_attachment. repeat split; simpl; auto.
    intros a [_ Hin]%list_elem_of_filter. auto.
  - unfold add_intervention, has_patient. case_bool_decide as Hpid; [|done].
    simpl. repeat split; simpl; auto using elem_of_fmap_snoc.
    intros i [Hin| ->%list_elem_of_singleton]%elem_of_app; auto.
  - unfold update_intervention. repeat split; simpl; auto.
    + intros i' (i & -> & Hin)%list_elem_of_fmap.
      case_bool_decide; simpl; auto.
    + intros a Hin. rewrite fmap_keeps_key; [auto|].
      intros x. by case_bool_decide.
  - unfold delete_intervention. repeat split; simpl; auto.
    + intros i [_ Hin]%list_elem_of_filter. auto.
    + intros a [Hgone Hin]%list_elem_of_filter.
      pose proof (Hia a Hin) as (i & Hid & Hi_in)%list_elem_of_fmap.
      apply list_elem_of_fmap. exists i. split; [done|].
      apply list_elem_of_filter. split; [|done]. intros Heq. apply Hgone.
      apply list_elem_of_fmap. exists i. split; [done|].
      by apply list_elem_of_filter.
  - unfold add_intervention_attachment, has_intervention.
    case_bool_decide as Hiid; [|done].
    simpl. repeat split; simpl; auto.
    intros a [Hin| ->%list_elem_of_singleton]%elem_of_app; auto.
  - unfold delete_intervention_attachment. repeat split; simpl; auto.
    intros a [_ Hin]%list_elem_of_filter. auto.
  - done.
Qed.

Lemma reachable_integrity self :
  reachable self → referential_integrity (conn self).
Proof.
  induction 1 as [path|self self' _ IH Hstep].
  - by repeat split.
  - by apply (api_step_integrity self).
Qed.

Lemma clinic_db_reachable : reachable clinic_db.
Proof. repeat (eapply reach_step; [|constructor]). apply reach_init. Qed.

Lemma delete_patient_cascades_witness :
  referential_integrity (conn clinic_db) ∧
  ((∀ p, p ∈ patients (conn (delete_patient clinic_db 1)) →
         Patient.patient_id p ≠ 1) ∧
   nothing_left_of (conn clinic_db) (conn (delete_patient clinic_db 1)) 1 ∧
   referential_integrity (conn (delete_patient clinic_db 1))).
Proof.
  assert (referential_integrity (conn clinic_db)) as Hfk by compute_done.
  split; [exact Hfk|].
  exact (delete_patient_cascades clinic_db 1 Hfk).
Defined.

(** What the cascade leaves of [clinic_db]: the second patient, his exam
    and its attachment. *)
Example clinic_after_delete :
  let s := conn (delete_patient clinic_db 1) in
  Patient.patient_id <$> patients s = [2] ∧
  Exam.exam_id <$> exams s = [2] ∧
  ExamAttachment.file_id <$> exam_attachments s = [2] ∧
  interventions s = [] ∧ intervention_attachments s = [].
Proof. by vm_compute. Qed.

(** ** Uniqueness of the patient code *)


(** An absent code is never a duplicate. *)
Lemma code_in_use_none rows : code_in_use None rows = false.
Proof. done. Qed.

(** Any other failure of the attempt goes to the "Error" dialog. *)
Lemma other_failure_shown_apart refresh_callback self_db entries e :
  is_Some (get_val (f_first_name entries)) →
  is_Some (get_val (f_last_name entries)) →
  is_Some (get_val (f_birth_date_var entries)) →
  (∀ db', fst (refresh_callback db') = Raise e) →
  (∀ msg, e ≠ IntegrityError msg) →
  code_in_use (get_val (f_patient_code entries)) (patients (conn self_db)) = false →
  snd (AddPatientWindow_add_patient refresh_callback self_db entries)
    = [showerror "Error" ("Could not add patient: " +:+ exn_str e)].
Proof.
  intros [fn Hfn] [ln Hln] [bd Hbd] Hraise Hother Hfree.
  unfold AddPatientWindow_add_patient. rewrite Hfn, Hln, Hbd.
  unfold add_patient. rewrite Hfree.
  match goal with |- context [refresh_callback ?d] =>
    specialize (Hraise d); destruct (refresh_callback d) as [r db'] end.
  simpl in Hraise. subst r. destruct e; try done. by destruct (Hother msg).
Qed.



(** ** Patient search *)









#[global] Instance by_last_name_dec : RelDecision by_last_name.
Proof. intros p q. unfold by_last_name. apply _. Defined.

#[global] Instance by_last_name_total : Total by_last_name.
Proof. intros p q. apply String.le_total. Qed.

#[global] Instance by_last_name_trans : Transitive by_last_name.
Proof.
  intros p q r. unfold by_last_name.
  apply (transitivity (R := String.le)).
Qed.




(** The search for "ACL" in the diagnoses of [clinic_db] and the search
    of everyone born from 1986 on. *)
Example search_acl :
  Patient.last_name <$> search_patients clinic_db "ACL" "diagnosis" = ["Roe"] ∧
  Patient.last_name <$> search_patients clinic_db "acl" "diagnosis" = ["Roe"] ∧
  Patient.last_name <$> search_patients clinic_db "" "diagnosis" = ["Doe"; "Roe"] ∧
  Patient.last_name <$>
    search_patients (set_birth_range clinic_db (Some "1986-01-01") None)
                    "" "last_name" = ["Doe"].
Proof. by vm_compute. Qed.


(** ** Age at an event *)

Lemma days_per_year_exact : (days_per_year == 1461 # 4)%Q.
Proof. done. Qed.

Lemma Qfloor_inject_Z z : Qfloor (inject_Z z) = z.
Proof. unfold Qfloor, inject_Z. apply Z.div_1_r. Qed.

Lemma whole_years d : Qfloor (inject_Z d / (1461 # 4)) = (4 * d) / 1461.
Proof.
  unfold Qdiv, Qmult, Qinv, Qfloor, inject_Z. simpl.
  f_equal; lia.
Qed.

(** What is left after the whole years is a number of quarter days. *)
Lemma left_over d c :
  (c == 1461 # 4)%Q →
  (inject_Z d - c * inject_Z ((4 * d) / 1461) == ((4 * d) mod 1461) # 4)%Q.
Proof.
  intros ->. unfold Qeq, Qminus, Qplus, Qopp, Qmult, inject_Z. simpl.
  pose proof (Z.div_mod (4 * d) 1461). lia.
Qed.

(** On quarter days below a year the binary64 value of [30.44] and the
    decimal give the same number of months. *)
Lemma months_insensitive k :
  0 ≤ k < 1461 →
  Qfloor ((k # 4) / days_per_month) = Qfloor ((k # 4) / (3044 # 100)).
Proof.
  intros Hk.
  assert (Forall (λ k, Qfloor ((k # 4) / days_per_month)
                       = Qfloor ((k # 4) / (3044 # 100))) (seqZ 0 1461))
    as Hall by compute_done.
  rewrite Forall_forall in Hall. apply Hall, elem_of_seqZ. lia.
Qed.

Lemma years_and_months d :
  int (floordiv (inject_Z d) days_per_year)
    = Qfloor (inject_Z d / (36525 # 100)) ∧
  int (floordiv (fmod (inject_Z d) days_per_year) days_per_month)
    = Qfloor ((inject_Z d
               - (36525 # 100) * inject_Z (Qfloor (inject_Z d / (36525 # 100))))
              / (3044 # 100)).
Proof.
  assert ((36525 # 100) == 1461 # 4)%Q as Hspec by done.
  unfold int, floordiv, fmod. rewrite !Qfloor_inject_Z.
  assert (Qfloor (inject_Z d / days_per_year) = (4 * d) / 1461) as ->
    by (rewrite days_per_year_exact; apply whole_years).
  assert (Qfloor (inject_Z d / (36525 # 100)) = (4 * d) / 1461) as ->
    by (rewrite Hspec; apply whole_years).
  split; [done|].
  rewrite (left_over d days_per_year days_per_year_exact).
  rewrite (left_over d (36525 # 100) Hspec).
  apply months_insensitive, Z.mod_pos_bound. lia.
Qed.

Lemma strptime_nonempty s d : Date.strptime s = Ok d → str_truthy s = true.
Proof. by destruct s. Qed.

(** C4.  The age is the empty string when a date is missing or does not
    parse; otherwise, with [d] the days from birth to the event, it is
    ["{y}y, {m}m"] with [y = floor(d / 365.25)] and
    [m = floor((d mod 365.25) / 30.44)]. *)
Theorem age_at_event_spec (patient_birth_date : option string)
    (event_date_str : string) :
  (patient_birth_date = None ∨ patient_birth_date = Some "" ∨
   event_date_str = "" →
   _calculate_age_at_event patient_birth_date event_date_str = "") ∧
  (∀ b, patient_birth_date = Some b →
        (∃ e, Date.strptime b = Raise e) ∨
        (∃ e, Date.strptime event_date_str = Raise e) →
        _calculate_age_at_event patient_birth_date event_date_str = "") ∧
  (∀ b bd ed,
     patient_birth_date = Some b →
     Date.strptime b = Ok bd → Date.strptime event_date_str = Ok ed →
     _calculate_age_at_event patient_birth_date event_date_str
       = age_as_specified (Date.toordinal ed - Date.toordinal bd)).
Proof.
  unfold _calculate_age_at_event. repeat split.
  - intros [->|[->| ->]]; [done..|]. by rewrite orb_true_r.
  - intros b -> Hfail. destruct (_ || _); [done|]. simpl.
    destruct Hfail as [[e ->]|[e ->]]; [done|].
    by destruct (Date.strptime b).
  - intros b bd ed -> Hbd Hed.
    cbn [ostr_truthy default].
    rewrite (strptime_nonempty _ _ Hbd), (strptime_nonempty _ _ Hed).
    cbn [negb orb id]. rewrite Hbd. cbn [mbind result_bind]. rewrite Hed.
    cbn [mbind result_bind mret result_ret]. unfold age_as_specified.
    by destruct (years_and_months (Date.toordinal ed - Date.toordinal bd))
      as [-> ->].
Qed.

Lemma age_at_event_spec_witness :
  _calculate_age_at_event None "2024-01-10" = "" ∧
  _calculate_age_at_event (Some "1990-05-01") "10.01.2024" = "" ∧
  (Date.strptime "1990-05-01"
     = Ok {| Date.year := 1990; Date.month := 5; Date.day := 1 |} ∧
   Date.strptime "2024-01-10"
     = Ok {| Date.year := 2024; Date.month := 1; Date.day := 10 |} ∧
   _calculate_age_at_event (Some "1990-05-01") "2024-01-10"
     = age_as_specified (738895 - 726588)).
Proof.
  split; [|split; [|split; [|split]]].
  - apply (age_at_event_spec None "2024-01-10"). by left.
  - apply (age_at_event_spec (Some "1990-05-01") "10.01.2024")
      with (b := "1990-05-01"); [reflexivity|].
    right. by eexists.
  - reflexivity.
  - reflexivity.
  - exact (proj2 (proj2 (age_at_event_spec (Some "1990-05-01") "2024-01-10"))
             "1990-05-01" _ _ eq_refl eq_refl eq_refl).
Defined.

(** The example scenario, and an event the day before the birth. *)
Example scenario_age :
  _calculate_age_at_event (Some "1990-05-01") "2024-01-10" = "33y, 8m" ∧
  age_as_specified (738895 - 726588) = "33y, 8m" ∧
  _calculate_age_at_event (Some "1990-05-01") "1990-04-30" = "-1y, 11m".
Proof. by vm_compute. Qed.

(** ** Backup *)







(** The name of the snapshot of [health_records.db] on 9 January 2024. *)
Example backup_name_jan_9 :
  path_join "backups" (backup_name "data/health_records.db" jan_9)
    = "backups/health_records_backup_20240109.db".
Proof. by vm_compute. Qed.

(** C8.  Whatever the [try] block of [backup_database] raises is printed
    and the call returns normally; the scheduler's loop therefore takes
    every turn it is given, whatever fails in between. *)
Theorem backup_never_raises :
  (∀ faults today self backup_dir w,
     fst (backup_database faults today self backup_dir w) = Ok () ∧
     match backup_try_block faults today self backup_dir w with
     | (Ok _, w') => snd (backup_database faults today self backup_dir w) = w'
     | (Raise e, w') =>
         snd (backup_database faults today self backup_dir w)
           = snd (print ("Backup Error: " +:+ exn_str e) w')
     end) ∧
  (∀ cycles faults clock self backup_dir w,
     fst (backup_loop cycles faults clock self backup_dir w) = Ok () ∧
     length (sleeps (snd (backup_loop cycles faults clock self backup_dir w)))
       = (length (sleeps w) + cycles)%nat).
Proof.
  assert (∀ faults today self backup_dir w,
            fst (backup_database faults today self backup_dir w) = Ok () ∧
            sleeps (snd (backup_database faults today self backup_dir w))
              = sleeps w ∧
            match backup_try_block faults today self backup_dir w with
            | (Ok _, w') =>
                snd (backup_database faults today self backup_dir w) = w'
            | (Raise e, w') =>
                snd (backup_database faults today self backup_dir w)
                  = snd (print ("Backup Error: " +:+ exn_str e) w')
            end) as Hone.
  { intros. unfold backup_database, try_except.
    assert (sleeps (snd (backup_try_block faults today self backup_dir w))
              = sleeps w) as Hsl.
    { unfold backup_try_block, mbind, io_bind, mkdir, sqlite_connect,
        sqlite_backup.
      repeat (first [ case_bool_decide | case_match ];
              simplify_eq/=; try done). }
    destruct (backup_try_block _ _ _ _ _) as [[[]|e] w']; simpl in *; done. }
  split.
  - intros. destruct (Hone faults today self backup_dir w) as (? & _ & ?). done.
  - induction cycles as [|n IH]; intros; simpl.
    + split; [done|lia].
    + unfold mbind, io_bind. simpl.
      match goal with |- context [backup_database ?f ?t ?s ?d ?w0] =>
        destruct (Hone f t s d w0) as (Hok & Hsl & _);
        destruct (backup_database f t s d w0) as [r w1] end.
      simpl in Hok, Hsl. subst r.
      match goal with |- context [backup_loop n ?f ?c ?s ?d ?w0] =>
        destruct (IH f c s d w0) as [-> ->] end.
      rewrite Hsl. simpl. rewrite length_app. simpl. split; [done|lia].
Qed.

(** ** Attachments *)

Lemma app_cons c s t : String c s +:+ t = String c (s +:+ t).
Proof. done. Qed.

Lemma app_string_length s t :
  String.length (s +:+ t) = (String.length s + String.length t)%nat.
Proof. induction s as [|c s IH]; [done|]. rewrite app_cons. simpl. by rewrite IH. Qed.

Lemma app_inv_tail_string s1 s2 t : s1 +:+ t = s2 +:+ t → s1 = s2.
Proof.
  revert s2. induction s1 as [|c s1 IH]; intros [|d s2] H.
  - done.
  - apply (f_equal String.length) in H.
    rewrite !app_string_length in H. simpl in H. lia.
  - apply (f_equal String.length) in H.
    rewrite !app_string_length in H. simpl in H. lia.
  - rewrite !app_cons in H. injection H as -> H. f_equal. by apply IH.
Qed.

Lemma path_join_same_head a c r1 r2 :
  path_join a (String c r1) = path_join a (String c r2) → r1 = r2.
Proof.
  unfold path_join. destruct (Ascii.eqb c "/").
  - by intros [= ->].
  - intros H. apply (inj _) in H. apply (inj _) in H. by injection H.
Qed.

#[global] Instance candidate_inj attachments_dir stem ext :
  Inj (=) (=) (candidate attachments_dir stem ext).
Proof.
  intros j k. unfold candidate. destruct stem as [|c stem].
  - change ("" +:+ "_" +:+ pretty j +:+ ext)
      with (String "_" (pretty j +:+ ext)).
    change ("" +:+ "_" +:+ pretty k +:+ ext)
      with (String "_" (pretty k +:+ ext)).
    intros H%path_join_same_head%app_inv_tail_string. by apply (inj pretty).
  - rewrite !(app_cons c stem). intros H%path_join_same_head.
    apply (inj _) in H. rewrite !app_cons in H. injection H as H.
    change (pretty j +:+ ext = pretty k +:+ ext) in H.
    apply app_inv_tail_string in H. by apply (inj pretty).
Qed.

Lemma path_exists_spec w p : path_exists w p = true ↔ p ∈ dom (files w) ∪ dirs w.
Proof. unfold path_exists. apply bool_decide_eq_true. Qed.

(** As many different existing names as the file system has entries, at
    most. *)
Lemma existing_candidates_bounded w attachments_dir stem ext (k : Z) :
  0 ≤ k →
  (∀ j, 1 ≤ j < 1 + k →
        candidate attachments_dir stem ext j ∈ dom (files w) ∪ dirs w) →
  (Z.to_nat k ≤ size (dom (files w) ∪ dirs w))%nat.
Proof.
  intros Hk Hall.
  set (l := candidate attachments_dir stem ext <$> seqZ 1 k).
  assert (NoDup l) as Hnd by (apply NoDup_fmap_2; [apply _|apply NoDup_seqZ]).
  assert (list_to_set l ⊆ dom (files w) ∪ dirs w) as Hsub.
  { intros p (j & -> & Hj%elem_of_seqZ)%elem_of_list_to_set%list_elem_of_fmap.
    apply Hall. lia. }
  apply subseteq_size in Hsub. rewrite size_list_to_set in Hsub by done.
  unfold l in Hsub. by rewrite length_fmap, length_seqZ in Hsub.
Qed.

Lemma next_free_total fuel w attachments_dir stem ext (k : Z) :
  1 ≤ k →
  (∀ j, 1 ≤ j < k →
        candidate attachments_dir stem ext j ∈ dom (files w) ∪ dirs w) →
  (size (dom (files w) ∪ dirs w) ≤ Z.to_nat (k - 1) + fuel)%nat →
  ∃ dest,
    next_free fuel w attachments_dir stem ext
              (candidate attachments_dir stem ext k) (k + 1) = Some dest ∧
    path_exists w dest = false.
Proof.
  revert k. induction fuel as [|fuel IH]; intros k Hk Hseen Hfuel.
  - simpl. destruct (path_exists w _) eqn:Hex; [|eauto].
    apply path_exists_spec in Hex.
    assert (Z.to_nat k ≤ size (dom (files w) ∪ dirs w))%nat.
    { apply existing_candidates_bounded with attachments_dir stem ext; [lia|].
      intros j Hj. destruct (decide (j = k)) as [->|]; [done|].
      apply Hseen. lia. }
    lia.
  - simpl. destruct (path_exists w _) eqn:Hex; [|eauto].
    apply path_exists_spec in Hex.
    apply (IH (k + 1)); [lia| |lia].
    intros j Hj. destruct (decide (j = k)) as [->|]; [done|].
    apply Hseen. lia.
Qed.

(** The search for a free name always ends, on a name that is free. *)
Lemma unique_dest_total w attachments_dir name :
  ∃ dest, unique_dest w attachments_dir name = Some dest ∧
          path_exists w dest = false.
Proof.
  unfold unique_dest. destruct (path_exists w _) eqn:Hex; [|eauto].
  cbn [next_free]. rewrite Hex.
  apply (next_free_total _ w attachments_dir _ _ 1); [lia| |simpl; lia].
  intros j Hj. lia.
Qed.



(** ** Primary keys *)

Lemma keys_ok_nil : keys_ok [] 0.
Proof. split; [done|split; constructor]. Qed.

Lemma keys_ok_snoc ids seq : keys_ok ids seq → keys_ok (ids ++ [seq + 1]) (seq + 1).
Proof.
  intros (Hseq & Hsorted & Hall). split; [lia|split].
  - apply StronglySorted_app_2; [|done|repeat constructor].
    intros i j Hi ->%list_elem_of_singleton.
    rewrite Forall_forall in Hall. specialize (Hall i Hi). lia.
  - apply Forall_app. split; [|repeat constructor; lia].
    eapply Forall_impl; [done|]. intros i ?. simpl in *. lia.
Qed.

Lemma StronglySorted_sublist {A} (R : relation A) l1 l2 :
  l1 `sublist_of` l2 → StronglySorted R l2 → StronglySorted R l1.
Proof.
  induction 1 as [|x l1 l2 Hsub IH|x l1 l2 Hsub IH]; intros Hs.
  - done.
  - apply StronglySorted_inv in Hs as [Hs Hx]. constructor; [auto|].
    rewrite Forall_forall in Hx |- *. intros y Hy. apply Hx.
    by eapply elem_of_sublist.
  - apply StronglySorted_inv in Hs as [Hs _]. auto.
Qed.

Lemma keys_ok_filter {A} (key : A → Z) (P : A → Prop)
    `{!∀ x, Decision (P x)} (l : list A) seq :
  keys_ok (key <$> l) seq → keys_ok (key <$> filter P l) seq.
Proof.
  intros (Hseq & Hsorted & Hall).
  assert ((key <$> filter P l) `sublist_of` (key <$> l)) as Hsub
    by (apply fmap_sublist, sublist_filter).
  split; [done|split].
  - by eapply StronglySorted_sublist.
  - rewrite Forall_forall in Hall |- *. intros i Hi. apply Hall.
    by eapply elem_of_sublist.
Qed.

Lemma keys_ok_insert {A} (key : A → Z) (l : list A) (r : A) seq :
  key r = seq + 1 →
  keys_ok (key <$> l) seq → keys_ok (key <$> (l ++ [r])) (seq + 1).
Proof. intros Hr H. rewrite fmap_app. simpl. rewrite Hr. by apply keys_ok_snoc. Qed.

Lemma keys_ok_update {A} (key : A → Z) (upd : A → A) (l : list A) seq :
  (∀ x, key (upd x) = key x) →
  keys_ok (key <$> l) seq → keys_ok (key <$> (upd <$> l)) seq.
Proof. intros Hkey H. by rewrite fmap_keeps_key. Qed.

Lemma api_step_well_keyed self self' :
  api_step self self' → well_keyed (conn self) → well_keyed (conn self').
Proof.
  intros Hstep (Hp & He & Hea & Hi & Hia). destruct Hstep.
  - unfold add_patient. destruct (code_in_use _ _); [done|].
    unfold well_keyed; simpl; split_and!; try done. by apply keys_ok_insert.
  - unfold update_patient. destruct (filter _ _); [done|].
    destruct (code_in_use _ _); [done|].
    unfold well_keyed; simpl; split_and!; try done. apply keys_ok_update; [|done].
    intros x. by case_bool_decide.
  - unfold delete_patient.
    unfold well_keyed; simpl; split_and!; by apply keys_ok_filter.
  - unfold add_exam. destruct (has_patient _ _); [|done].
    unfold well_keyed; simpl; split_and!; try done. by apply keys_ok_insert.
  - unfold update_exam.
    unfold well_keyed; simpl; split_and!; try done. apply keys_ok_update; [|done].
    intros x. by case_bool_decide.
  - unfold delete_exam.
    unfold well_keyed; simpl; split_and!; try done; by apply keys_ok_filter.
  - unfold add_exam_attachment. destruct (has_exam _ _); [|done].
    unfold well_keyed; simpl; split_and!; try done. by apply keys_ok_insert.
  - unfold delete_exam_attachment.
    unfold well_keyed; simpl; split_and!; try done; by apply keys_ok_filter.
  - unfold add_intervention. destruct (has_patient _ _); [|done].
    unfold well_keyed; simpl; split_and!; try done. by apply keys_ok_insert.
  - unfold update_intervention.
    unfold well_keyed; simpl; split_and!; try done. apply keys_ok_update; [|done].
    intros x. by case_bool_decide.
  - unfold delete_intervention.
    unfold well_keyed; simpl; split_and!; try done; by apply keys_ok_filter.
  - unfold add_intervention_attachment. destruct (has_intervention _ _); [|done].
    unfold well_keyed; simpl; split_and!; try done. by apply keys_ok_insert.
  - unfold delete_intervention_attachment.
    unfold well_keyed; simpl; split_and!; try done; by apply keys_ok_filter.
  - done.
Qed.

Lemma reachable_well_keyed self : reachable self → well_keyed (conn self).
Proof.
  induction 1 as [path|self self' _ IH Hstep].
  - unfold well_keyed; simpl; split_and!; apply keys_ok_nil.
  - by apply (api_step_well_keyed self).
Qed.

(** X1.  In every database that the methods of [Database] can build from
    an empty file, each exam and intervention has its patient and each
    attachment its exam or intervention. *)
Theorem foreign_keys_always_hold (self : Database) :
  reachable self → referential_integrity (conn self).
Proof. apply reachable_integrity. Qed.

Lemma foreign_keys_always_hold_witness :
  reachable clinic_db ∧ referential_integrity (conn clinic_db).
Proof.
  assert (reachable clinic_db) as Hreach.
  { repeat (eapply reach_step; [|constructor]). apply reach_init. }
  split; [exact Hreach|]. exact (foreign_keys_always_hold clinic_db Hreach).
Defined.

(** X2.  In every such database the keys of each table ascend in rowid
    order, so no two rows share one, they are positive, and none exceeds
    the table's AUTOINCREMENT counter. *)
Theorem primary_keys_ascend (self : Database) :
  reachable self → well_keyed (conn self).
Proof. apply reachable_well_keyed. Qed.

Lemma primary_keys_ascend_witness :
  reachable clinic_db ∧ well_keyed (conn clinic_db).
Proof.
  assert (reachable clinic_db) as Hreach.
  { repeat (eapply reach_step; [|constructor]). apply reach_init. }
  split; [exact Hreach|]. exact (primary_keys_ascend clinic_db Hreach).
Defined.







(** ** Uniqueness of the patient codes *)

Lemma elem_of_codes (l : list Patient.row) c :
  c ∈ omap Patient.patient_code l ↔ Some c ∈ Patient.patient_code <$> l.
Proof.
  rewrite list_elem_of_omap, list_elem_of_fmap. split.
  - intros (p & Hp & Hc). eauto.
  - intros (p & Hc & Hp). eauto.
Qed.

Lemma omap_cons_eq {A B} (f : A → option B) (x : A) (l : list A) :
  omap f (x :: l)
    = match f x with Some y => y :: omap f l | None => omap f l end.
Proof. done. Qed.

Lemma NoDup_omap_filter {A B} (f : A → option B) (P : A → Prop)
    `{!∀ x, Decision (P x)} (l : list A) :
  NoDup (omap f l) → NoDup (omap f (filter P l)).
Proof.
  induction l as [|x l IH]; [done|].
  rewrite filter_cons, omap_cons_eq. intros Hnd.
  assert (NoDup (omap f l)) as Hl
    by (destruct (f x); [by apply NoDup_cons in Hnd as [_ ?]|done]).
  destruct (decide (P x)); [|auto]. rewrite omap_cons_eq.
  destruct (f x) as [y|]; [|auto].
  apply NoDup_cons in Hnd as [Hy _]. apply NoDup_cons. split; [|auto].
  intros (z & [_ Hz]%list_elem_of_filter & Hfz)%list_elem_of_omap.
  apply Hy, list_elem_of_omap. eauto.
Qed.

Lemma update_keeps_codes_unique (l : list Patient.row) (pid : Z)
    (upd : Patient.row → Patient.row) (new : option string) :
  (∀ x, Patient.patient_id x ≠ pid → upd x = x) →
  (∀ x, Patient.patient_id x = pid → Patient.patient_code (upd x) = new) →
  NoDup (Patient.patient_id <$> l) →
  NoDup (omap Patient.patient_code l) →
  (∀ c, new = Some c →
        Some c ∉ Patient.patient_code <$>
                   filter (λ p, Patient.patient_id p ≠ pid) l) →
  NoDup (omap Patient.patient_code (upd <$> l)).
Proof.
  intros Hkeep Hnew. induction l as [|x l IH]; [done|].
  rewrite fmap_cons, NoDup_cons. intros [Hx Hids] Hcodes Hfree.
  rewrite omap_cons_eq in Hcodes.
  assert (NoDup (omap Patient.patient_code l)) as Hl.
  { destruct (Patient.patient_code x);
      [by apply NoDup_cons in Hcodes as [_ ?]|done]. }
  assert (NoDup (omap Patient.patient_code (upd <$> l))) as Htail.
  { apply IH; [done..|]. intros c Hc Hin. apply (Hfree c Hc).
    rewrite filter_cons. destruct (decide _); [|done].
    rewrite fmap_cons. by apply list_elem_of_further. }
  destruct (decide (Patient.patient_id x = pid)) as [Hhit|Hmiss].
  - assert (upd <$> l = l) as Hsame.
    { rewrite <- (list_fmap_id l) at 2. apply list_fmap_ext.
      intros i y Hy. unfold id. apply Hkeep. intros Hy'. apply Hx.
      apply list_elem_of_fmap. exists y. split; [congruence|].
      by eapply list_elem_of_lookup_2. }
    rewrite fmap_cons, omap_cons_eq, Hsame, (Hnew x Hhit).
    destruct new as [c|]; [|done].
    apply NoDup_cons. split; [|done]. intros Hc%elem_of_codes.
    apply (Hfree c eq_refl). rewrite filter_cons_False by (by intros []).
    apply list_elem_of_fmap in Hc as (y & Hy & Hin).
    apply list_elem_of_fmap. exists y. split; [done|].
    apply list_elem_of_filter. split; [|done]. intros Hy'. apply Hx.
    apply list_elem_of_fmap. exists y. split; [congruence|done].
  - rewrite fmap_cons, omap_cons_eq, (Hkeep x Hmiss).
    destruct (Patient.patient_code x) as [cx|] eqn:Hcx; [|done].
    apply NoDup_cons. split; [|done].
    intros (z' & (z & -> & Hz)%list_elem_of_fmap & Hcz)%list_elem_of_omap.
    destruct (decide (Patient.patient_id z = pid)) as [Hzhit|Hzmiss].
    + rewrite (Hnew z Hzhit) in Hcz. apply (Hfree cx Hcz).
      rewrite filter_cons_True by done. rewrite fmap_cons, Hcx.
      apply list_elem_of_here.
    + rewrite (Hkeep z Hzmiss) in Hcz.
      apply NoDup_cons in Hcodes as [Hnot _]. apply Hnot, list_elem_of_omap.
      eauto.
Qed.

Lemma StronglySorted_lt_NoDup (ids : list Z) : StronglySorted Z.lt ids → NoDup ids.
Proof.
  induction 1 as [|i ids _ IH Hall]; constructor; [|done].
  intros Hin. rewrite Forall_forall in Hall. specialize (Hall i Hin). lia.
Qed.

Lemma api_step_codes_unique self self' :
  api_step self self' → well_keyed (conn self) →
  NoDup (codes (conn self)) → NoDup (codes (conn self')).
Proof.
  intros Hstep ((_ & Hsorted & _) & _) Hnd. unfold codes in *.
  destruct Hstep; try done.
  - unfold add_patient. destruct (code_in_use _ _) eqn:Hfree; [done|].
    simpl. rewrite omap_app. simpl. destruct pc as [code|]; simpl.
    + apply NoDup_app. split; [done|]. split; [|apply NoDup_singleton].
      intros y Hy ->%list_elem_of_singleton.
      apply elem_of_codes in Hy. unfold code_in_use in Hfree.
      by apply bool_decide_eq_false in Hfree.
    + by rewrite app_nil_r.
  - unfold update_patient. destruct (filter _ _) eqn:Hhit; [done|].
    destruct (code_in_use _ _) eqn:Hfree; [done|]. simpl.
    apply (update_keeps_codes_unique _ pid _ pc); try done.
    + intros x Hx. by rewrite bool_decide_eq_false_2.
    + intros x Hx. by rewrite bool_decide_eq_true_2.
    + by apply StronglySorted_lt_NoDup.
    + intros code -> Hin. unfold code_in_use in Hfree.
      by apply bool_decide_eq_false in Hfree.
  - unfold delete_patient. simpl. by apply NoDup_omap_filter.
  - unfold add_exam. by destruct (has_patient _ _).
  - unfold add_exam_attachment. by destruct (has_exam _ _).
  - unfold add_intervention. by destruct (has_patient _ _).
  - unfold add_intervention_attachment. by destruct (has_intervention _ _).
Qed.

Lemma reachable_codes_unique (self : Database) :
  reachable self → NoDup (codes (conn self)).
Proof.
  induction 1 as [path|self self' Hreach IH Hstep]; [constructor|].
  apply (api_step_codes_unique self); [done| |done].
  by apply reachable_well_keyed.
Qed.

Lemma same_code_same_row (l : list Patient.row) p q c :
  NoDup (omap Patient.patient_code l) → p ∈ l → q ∈ l →
  Patient.patient_code p = Some c → Patient.patient_code q = Some c → p = q.
Proof.
  induction l as [|x l IH]; [by intros _ ?%elem_of_nil|].
  rewrite omap_cons_eq. intros Hnd Hp Hq Hcp Hcq.
  apply elem_of_cons in Hp as [->|Hp], Hq as [->|Hq]; [done|..].
  - rewrite Hcp in Hnd. apply NoDup_cons in Hnd as [Hnotin _].
    destruct Hnotin. apply list_elem_of_omap. eauto.
  - rewrite Hcq in Hnd. apply NoDup_cons in Hnd as [Hnotin _].
    destruct Hnotin. apply list_elem_of_omap. eauto.
  - apply IH; [|done..]. destruct (Patient.patient_code x); [|done].
    by apply NoDup_cons in Hnd as [_ ?].
Qed.

(** X5.  In every database the methods can build no two patients carry
    the same code: a code names at most one row. *)
Theorem patient_codes_stay_unique (self : Database) :
  reachable self →
  NoDup (codes (conn self)) ∧
  ∀ p q c,
    p ∈ patients (conn self) → q ∈ patients (conn self) →
    Patient.patient_code p = Some c → Patient.patient_code q = Some c →
    p = q.
Proof.
  intros Hnd%reachable_codes_unique. split; [done|].
  intros p q c. by apply same_code_same_row.
Qed.

Lemma patient_codes_stay_unique_witness :
  reachable clinic_db ∧ NoDup (codes (conn clinic_db)).
Proof.
  assert (reachable clinic_db) as Hreach.
  { repeat (eapply reach_step; [|constructor]). apply reach_init. }
  split; [exact Hreach|].
  exact (proj1 (patient_codes_stay_unique clinic_db Hreach)).
Defined.

(** ** What the deletions leave alone *)

(** X6.  [delete_patient] removes nothing that belongs to another
    patient: the other patients, their exams and interventions and the
    attachments of those all stay. *)
Theorem delete_patient_keeps_others (self : Database) (patient_id : Z) :
  (∀ p, p ∈ patients (conn self) → Patient.patient_id p ≠ patient_id →
        p ∈ patients (conn (delete_patient self patient_id))) ∧
  (∀ e, e ∈ exams (conn self) → Exam.patient_id e ≠ patient_id →
        e ∈ exams (conn (delete_patient self patient_id))) ∧
  (∀ i, i ∈ interventions (conn self) →
        Intervention.patient_id i ≠ patient_id →
        i ∈ interventions (conn (delete_patient self patient_id))) ∧
  (∀ a, a ∈ exam_attachments (conn self) →
        ¬ exam_attachment_of (conn self) patient_id a →
        a ∈ exam_attachments (conn (delete_patient self patient_id))) ∧
  (∀ a, a ∈ intervention_attachments (conn self) →
        ¬ intervention_attachment_of (conn self) patient_id a →
        a ∈ intervention_attachments (conn (delete_patient self patient_id))).
Proof.
  unfold delete_patient. simpl. split_and!.
  - intros p Hin Hp. by apply list_elem_of_filter.
  - intros e Hin He. apply list_elem_of_filter. split; [|done].
    by intros [? _]%gone_patient_ids.
  - intros i Hin Hi. apply list_elem_of_filter. split; [|done].
    by intros [? _]%gone_patient_ids.
  - intros a Hin Hnot. apply list_elem_of_filter. split; [|done].
    intros (e & Hid & [[Hpid _]%gone_patient_ids He]%list_elem_of_filter)
      %list_elem_of_fmap.
    apply Hnot. by exists e.
  - intros a Hin Hnot. apply list_elem_of_filter. split; [|done].
    intros (i & Hid & [[Hpid _]%gone_patient_ids Hi]%list_elem_of_filter)
      %list_elem_of_fmap.
    apply Hnot. by exists i.
Qed.

Lemma delete_patient_keeps_others_witness :
  ∃ p e a,
    (p ∈ patients (conn clinic_db) ∧ Patient.patient_id p ≠ 1 ∧
     e ∈ exams (conn clinic_db) ∧ Exam.patient_id e ≠ 1 ∧
     a ∈ exam_attachments (conn clinic_db) ∧
     ¬ exam_attachment_of (conn clinic_db) 1 a) ∧
    p ∈ patients (conn (delete_patient clinic_db 1)) ∧
    e ∈ exams (conn (delete_patient clinic_db 1)) ∧
    a ∈ exam_attachments (conn (delete_patient clinic_db 1)).
Proof.
  destruct (delete_patient_keeps_others clinic_db 1) as (Hp & He & _ & Ha & _).
  assert (∃ p, patients (conn clinic_db) !! 1%nat = Some p) as [p Hp_at]
    by (eexists; vm_compute; reflexivity).
  assert (∃ e, exams (conn clinic_db) !! 1%nat = Some e) as [e He_at]
    by (eexists; vm_compute; reflexivity).
  assert (∃ a, exam_attachments (conn clinic_db) !! 1%nat = Some a) as [a Ha_at]
    by (eexists; vm_compute; reflexivity).
  exists p, e, a.
  assert (p ∈ patients (conn clinic_db)) as Hp_in
    by (by eapply list_elem_of_lookup_2).
  assert (e ∈ exams (conn clinic_db)) as He_in
    by (by eapply list_elem_of_lookup_2).
  assert (a ∈ exam_attachments (conn clinic_db)) as Ha_in
    by (by eapply list_elem_of_lookup_2).
  assert (Patient.patient_id p ≠ 1) as Hp_ne
    by (vm_compute in Hp_at; injection Hp_at as <-; done).
  assert (Exam.patient_id e ≠ 1) as He_ne
    by (vm_compute in He_at; injection He_at as <-; done).
  assert (¬ exam_attachment_of (conn clinic_db) 1 a) as Ha_ne.
  { vm_compute in Ha_at. injection Ha_at as <-.
    intros (e' & He' & Hid & Hpid).
    assert (Forall (λ e', Exam.exam_id e' = 2 → Exam.patient_id e' ≠ 1)
                   (exams (conn clinic_db))) as Hall
      by (vm_compute; repeat constructor; done).
    rewrite Forall_forall in Hall. by apply (Hall e' He' Hid). }
  split; [done|]. split; [by apply Hp|]. split; [by apply He|by apply Ha].
Defined.

(** X7.  On a store whose foreign keys hold, [delete_exam] removes the
    exam and its attachments and nothing else: every other exam and
    attachment stays, patients and interventions are not touched, and
    the foreign keys hold afterwards. *)
Theorem delete_exam_takes_its_attachments (self : Database) (exam_id : Z) :
  referential_integrity (conn self) →
  let s := conn self in
  let s' := conn (delete_exam self exam_id) in
  (∀ e, e ∈ exams s' ↔ e ∈ exams s ∧ Exam.exam_id e ≠ exam_id) ∧
  (∀ a, a ∈ exam_attachments s' ↔
        a ∈ exam_attachments s ∧ ExamAttachment.exam_id a ≠ exam_id) ∧
  patients s' = patients s ∧ interventions s' = interventions s ∧
  intervention_attachments s' = intervention_attachments s ∧
  referential_integrity s'.
Proof.
  intros Hfk s s'. subst s s'. split_and!; try done.
  - intros e. unfold delete_exam. simpl. rewrite list_elem_of_filter. tauto.
  - intros a. unfold delete_exam. simpl. rewrite list_elem_of_filter.
    apply integrity_forall in Hfk as (_ & _ & Hea & _).
    split.
    + intros [Hgone Hin]. split; [done|]. intros Heq. apply Hgone.
      pose proof (Hea a Hin) as (e & Hid & He)%list_elem_of_fmap.
      apply list_elem_of_fmap. exists e. split; [done|].
      apply list_elem_of_filter. split; [congruence|done].
    + intros [Hin Hne]. split; [|done].
      intros (e & Hid & [He _]%list_elem_of_filter)%list_elem_of_fmap.
      congruence.
  - apply (api_step_integrity self); [constructor|done].
Qed.

Lemma delete_exam_takes_its_attachments_witness :
  referential_integrity (conn clinic_db) ∧
  ExamAttachment.file_id <$> exam_attachments (conn (delete_exam clinic_db 1))
    = [2] ∧
  referential_integrity (conn (delete_exam clinic_db 1)).
Proof.
  assert (referential_integrity (conn clinic_db)) as Hfk by compute_done.
  split; [exact Hfk|]. split; [by vm_compute|].
  apply (delete_exam_takes_its_attachments clinic_db 1 Hfk).
Defined.

(** X8.  An identifier is never handed out twice: the patient added after
    any deletion gets an identifier that no patient of the database, the
    deleted one included, has had. *)
Theorem deleted_patient_id_not_reused (self : Database) (gone : Z)
    first_name last_name birth_date diagnosis gender height assistive_device
    patient_code address post_number city country phone mobile email
    (patient_id : Z) (self' : Database) :
  reachable self →
  add_patient (delete_patient self gone) first_name last_name birth_date
              diagnosis gender height assistive_device patient_code address
              post_number city country phone mobile email
    = (Ok patient_id, self') →
  ∀ p, p ∈ patients (conn self) → Patient.patient_id p < patient_id.
Proof.
  intros ((_ & _ & Hall) & _)%reachable_well_keyed. unfold add_patient.
  destruct (code_in_use _ _); [done|]. intros [= <- _] p Hp.
  rewrite Forall_fmap, Forall_forall in Hall. specialize (Hall p Hp).
  simpl in *. lia.
Qed.

Lemma deleted_patient_id_not_reused_witness :
  reachable clinic_db ∧
  (∃ self',
     add_patient (delete_patient clinic_db 2) "Ann" "Poe" "2001-02-03" None None
                 None None None None None None None None None None
       = (Ok 3, self')) ∧
  ∀ p, p ∈ patients (conn clinic_db) → Patient.patient_id p < 3.
Proof.
  assert (reachable clinic_db) as Hreach.
  { repeat (eapply reach_step; [|constructor]). apply reach_init. }
  split; [exact Hreach|]. split; [by eexists|].
  exact (deleted_patient_id_not_reused clinic_db 2 "Ann" "Poe" "2001-02-03"
           None None None None None None None None None None None None 3 _
           Hreach eq_refl).
Defined.

(** ** More on the age *)

Lemma age_of_parsed_dates b e bd ed :
  Date.strptime b = Ok bd → Date.strptime e = Ok ed →
  _calculate_age_at_event (Some b) e
    = age_as_specified (Date.toordinal ed - Date.toordinal bd).
Proof.
  intros Hbd Hed. unfold _calculate_age_at_event. cbn [ostr_truthy default].
  rewrite (strptime_nonempty _ _ Hbd), (strptime_nonempty _ _ Hed).
  cbn [negb orb id]. rewrite Hbd. cbn [mbind result_bind]. rewrite Hed.
  cbn [mbind result_bind mret result_ret]. unfold age_as_specified.
  by destruct (years_and_months (Date.toordinal ed - Date.toordinal bd))
    as [-> ->].
Qed.

Lemma age_in_integers d :
  age_as_specified d
    = pretty ((4 * d) / 1461) +:+ "y, "
      +:+ pretty ((25 * ((4 * d) mod 1461)) / 3044) +:+ "m".
Proof.
  unfold age_as_specified.
  assert ((36525 # 100) == 1461 # 4)%Q as Hspec by done.
  assert (Qfloor (inject_Z d / (36525 # 100)) = (4 * d) / 1461) as ->
    by (rewrite Hspec; apply whole_years).
  rewrite (left_over d (36525 # 100) Hspec).
  do 3 f_equal. unfold Qdiv, Qmult, Qinv, Qfloor. simpl.
  rewrite <- (Z.div_mul_cancel_r (25 * _) 3044 4) by lia.
  change (Z.pos (4 * 3044)) with (3044 * 4). do 2 f_equal. lia.
Qed.

(** X9.  For two dates that parse, the age reads ["{y}y, {m}m"] with a
    month count from 0 to 11, whatever the order of the dates; the year
    count is negative exactly when the event lies before the birth. *)
Theorem age_months_within_a_year (b e : string) (bd ed : Date.t) :
  Date.strptime b = Ok bd → Date.strptime e = Ok ed →
  ∃ y m,
    _calculate_age_at_event (Some b) e
      = pretty y +:+ "y, " +:+ pretty m +:+ "m" ∧
    0 ≤ m ≤ 11 ∧
    (y < 0 ↔ Date.toordinal ed < Date.toordinal bd).
Proof.
  intros Hbd Hed. rewrite (age_of_parsed_dates b e bd ed Hbd Hed).
  rewrite age_in_integers.
  set (d := Date.toordinal ed - Date.toordinal bd).
  exists ((4 * d) / 1461), ((25 * ((4 * d) mod 1461)) / 3044).
  split; [done|].
  pose proof (Z.mod_pos_bound (4 * d) 1461 eq_refl) as Hk. split.
  - split; [apply Z.div_pos; lia|].
    apply Z.lt_succ_r, Z.div_lt_upper_bound; lia.
  - split.
    + intros Hy. destruct (decide (0 ≤ d)); [|lia].
      assert (0 ≤ (4 * d) / 1461) by (apply Z.div_pos; lia). lia.
    + intros Hlt. apply Z.div_lt_upper_bound; lia.
Qed.

Lemma age_months_within_a_year_witness :
  (Date.strptime "1990-05-01"
     = Ok {| Date.year := 1990; Date.month := 5; Date.day := 1 |} ∧
   Date.strptime "1990-04-30"
     = Ok {| Date.year := 1990; Date.month := 4; Date.day := 30 |}) ∧
  ∃ y m,
    _calculate_age_at_event (Some "1990-05-01") "1990-04-30"
      = pretty y +:+ "y, " +:+ pretty m +:+ "m" ∧
    0 ≤ m ≤ 11 ∧ (y < 0 ↔ 726587 < 726588).
Proof.
  split; [by split|].
  exact (age_months_within_a_year "1990-05-01" "1990-04-30" _ _ eq_refl eq_refl).
Defined.

(** ** The preview of the notes *)

Lemma substring_length_le n s : (String.length (String.substring 0 n s) ≤ n)%nat.
Proof.
  revert s. induction n as [|n IH]; intros [|c s]; simpl; try lia.
  specialize (IH s). lia.
Qed.

Lemma substring_all n s :
  (String.length s ≤ n)%nat → String.substring 0 n s = s.
Proof.
  revert s. induction n as [|n IH]; intros [|c s]; simpl; try done; try lia.
  intros Hlen. f_equal. apply IH. lia.
Qed.

Lemma substring_has_char c n s :
  has_char c (String.substring 0 n s) = true → has_char c s = true.
Proof.
  unfold has_char. revert s. induction n as [|n IH]; intros [|d s]; simpl;
    try done.
  intros [->| H]%orb_true_iff; [done|]. rewrite (IH s H). apply orb_true_r.
Qed.

Lemma first_line_no_newline s : has_char "010" (first_line s) = false.
Proof.
  unfold has_char. induction s as [|c s IH]; [done|]. simpl first_line.
  destruct (Ascii.eqb c "010") eqn:Hc; [done|].
  cbn [list_ascii_of_string existsb]. rewrite IH, (Ascii.eqb_sym "010" c), Hc.
  done.
Qed.

Lemma first_line_of_one_line s : has_char "010" s = false → first_line s = s.
Proof.
  unfold has_char. induction s as [|c s IH]; [done|].
  cbn [list_ascii_of_string existsb]. rewrite (Ascii.eqb_sym "010" c).
  intros [Hc Hs]%orb_false_iff. simpl. rewrite Hc. f_equal. auto.
Qed.

Lemma has_char_app c s t :
  has_char c (s +:+ t) = has_char c s || has_char c t.
Proof.
  unfold has_char. induction s as [|d s IH]; [done|].
  rewrite app_cons. cbn [list_ascii_of_string existsb]. rewrite IH.
  apply orb_assoc.
Qed.

(** X10.  The preview of the notes in the lists is at most 53 characters
    long and holds no line break; notes of one line and at most 50
    characters are shown whole, and the timeline shows the same preview
    as the two tabs. *)
Theorem notes_preview_fits (notes : option string) :
  (String.length (notes_preview notes) ≤ 53)%nat ∧
  has_char "010" (notes_preview notes) = false ∧
  (∀ s, notes = Some s → has_char "010" s = false → len s ≤ 50 →
        notes_preview notes = s) ∧
  timeline_notes_preview (if ostr_truthy notes then default "" notes else "")
    = notes_preview notes.
Proof.
  unfold notes_preview, timeline_notes_preview, slice.
  change (Z.to_nat 0) with 0%nat. change (Z.to_nat (50 - 0)) with 50%nat.
  split_and!.
  - rewrite app_string_length.
    pose proof (substring_length_le 50
      (if ostr_truthy notes then first_line (default "" notes) else "")).
    destruct (_ && _); simpl; lia.
  - rewrite has_char_app. apply orb_false_iff. split.
    + destruct (has_char _ (String.substring _ _ _)) eqn:H; [|done].
      apply substring_has_char in H.
      destruct (ostr_truthy notes); [|done].
      by rewrite first_line_no_newline in H.
    + by destruct (_ && _).
  - intros s -> Hline Hlen. simpl. destruct s as [|c s]; [done|].
    cbn [str_truthy andb]. rewrite (first_line_of_one_line _ Hline).
    assert ((50 <? len (String c s)) = false) as -> by (apply Z.ltb_ge; lia).
    unfold len in Hlen. rewrite substring_all by lia.
    clear. generalize (String c s). intros t.
    induction t as [|d t IH]; [done|]. rewrite app_cons. by rewrite IH.
  - destruct notes as [[|c s]|]; try done.
Qed.

Lemma notes_preview_fits_witness :
  (has_char "010" "walks with a cane" = false ∧ len "walks with a cane" ≤ 50) ∧
  notes_preview (Some "walks with a cane") = "walks with a cane".
Proof.
  split; [by split|].
  by apply (notes_preview_fits (Some "walks with a cane")).
Defined.

(** Long notes, and notes whose first line is short. *)
Example notes_preview_cut :
  notes_preview
    (Some "0123456789012345678901234567890123456789012345678901234")
    = "01234567890123456789012345678901234567890123456789..." ∧
  notes_preview
    (Some ("short" +:+ String "010"
           "0123456789012345678901234567890123456789012345678901234"))
    = "short...".
Proof. by vm_compute. Qed.

(** ** The date widget *)

Lemma checked_on_range (P : Z → bool) (lo n : Z) :
  forallb P (seqZ lo n) = true → ∀ z, lo ≤ z < lo + n → P z = true.
Proof.
  intros Hall z Hz. rewrite forallb_forall in Hall.
  apply Hall, list_elem_of_In, elem_of_seqZ. lia.
Qed.

Lemma years_read_back y : 1 ≤ y ≤ 9999 → year_reads_back y = true.
Proof.
  intros Hy. apply (checked_on_range year_reads_back 1 9999); [|lia].
  vm_compute. reflexivity.
Qed.

Lemma months_days_read_back m d :
  1 ≤ m ≤ 12 → 1 ≤ d ≤ 31 → month_day_reads_back (m, d) = true.
Proof.
  intros Hm Hd.
  assert (forallb (λ m, forallb (λ d, month_day_reads_back (m, d)) (seqZ 1 31))
                  (seqZ 1 12) = true) as Hall by (vm_compute; reflexivity).
  pose proof (checked_on_range _ 1 12 Hall m ltac:(lia)) as Hrow.
  cbv beta in Hrow.
  exact (checked_on_range _ 1 31 Hrow d ltac:(lia)).
Qed.

Lemma days_in_month_le y m : Date.days_in_month y m ≤ 31.
Proof.
  unfold Date.days_in_month.
  repeat match goal with |- context [if ?b then _ else _] => destruct b end;
    lia.
Qed.

Lemma make_inv y m d date :
  Date.make y m d = Ok date →
  1 ≤ y ≤ 9999 ∧ 1 ≤ m ≤ 12 ∧ 1 ≤ d ≤ 31 ∧
  date = {| Date.year := y; Date.month := m; Date.day := d |}.
Proof.
  unfold Date.make.
  destruct ((1 <=? y) && (y <=? 9999)) eqn:Hy; [|done].
  destruct ((1 <=? m) && (m <=? 12)) eqn:Hm; [|done].
  destruct ((1 <=? d) && (d <=? Date.days_in_month y m)) eqn:Hd; [|done].
  simpl. intros [= <-]. pose proof (days_in_month_le y m).
  apply andb_true_iff in Hy as [?%Z.leb_le ?%Z.leb_le].
  apply andb_true_iff in Hm as [?%Z.leb_le ?%Z.leb_le].
  apply andb_true_iff in Hd as [?%Z.leb_le ?%Z.leb_le].
  repeat split; lia.
Qed.

(** A date that [datetime] accepts, written with [%04d-%02d-%02d], is
    read back by [strptime] as the same date. *)
Lemma strptime_of_formatted y m d date :
  Date.make y m d = Ok date →
  Date.strptime (format_0d 4 y +:+ "-" +:+ format_0d 2 m +:+ "-"
                 +:+ format_0d 2 d) = Ok date.
Proof.
  intros Hmake. pose proof Hmake as (Hy & Hm & Hd & ->)%make_inv.
  pose proof (years_read_back y Hy) as Hyear.
  pose proof (months_days_read_back m d Hm Hd) as Hmd.
  unfold year_reads_back in Hyear. unfold month_day_reads_back in Hmd.
  simpl fst in Hmd. simpl snd in Hmd.
  destruct (format_0d 4 y) as [|a [|b [|c [|e [|]]]]]; try done.
  apply andb_true_iff in Hyear as [Hdigits <-%Z.eqb_eq].
  change (Date.strptime
            (String a (String b (String c (String e (String "-"
               (format_0d 2 m +:+ "-" +:+ format_0d 2 d))))))
          = Ok {| Date.year := 1000 * Date.digit a + 100 * Date.digit b
                               + 10 * Date.digit c + Date.digit e;
                  Date.month := m; Date.day := d |}).
  unfold Date.strptime. rewrite Hdigits.
  destruct (Date.month_day _) as [[[m' d'] [|]]|]; try done.
  apply andb_true_iff in Hmd as [->%Z.eqb_eq ->%Z.eqb_eq]. done.
Qed.

(** X11.  Whatever the three boxes of the date widget hold, the value it
    publishes is empty or a string that [strptime] reads as the date
    made of the three numbers: the widget never hands on a date that the
    age computation cannot parse. *)
Theorem date_entry_publishes_parseable (y m d v : string) :
  _update_var y m d = Ok v →
  v = "" ∨
  ∃ date,
    Date.strptime v = Ok date ∧
    py_int y = Ok (Date.year date) ∧ py_int m = Ok (Date.month date) ∧
    py_int d = Ok (Date.day date).
Proof.
  unfold _update_var. destruct (_ && _); [|intros [= <-]; by left].
  destruct (py_int y) as [yy|ey] eqn:Hy; cbn [mbind result_bind];
    [|destruct ey; intros [= <-]; by left].
  destruct (py_int m) as [mm|em] eqn:Hm; cbn [mbind result_bind];
    [|destruct em; intros [= <-]; by left].
  destruct (py_int d) as [dd|ed] eqn:Hd; cbn [mbind result_bind];
    [|destruct ed; intros [= <-]; by left].
  destruct (datetime_new yy mm dd) as [date|e] eqn:Hnew;
    cbn [mbind result_bind mret result_ret];
    [|destruct e; intros [= <-]; by left].
  intros [= <-]. right. exists date.
  unfold datetime_new in Hnew. destruct (_ && _) in Hnew; [|done].
  split; [by apply strptime_of_formatted|].
  by apply make_inv in Hnew as (_ & _ & _ & ->).
Qed.

Lemma date_entry_publishes_parseable_witness :
  _update_var "2024" "02" "29" = Ok "2024-02-29" ∧
  ("2024-02-29" = "" ∨
   ∃ date,
     Date.strptime "2024-02-29" = Ok date ∧
     py_int "2024" = Ok (Date.year date) ∧ py_int "02" = Ok (Date.month date) ∧
     py_int "29" = Ok (Date.day date)).
Proof.
  assert (_update_var "2024" "02" "29" = Ok "2024-02-29") as H
    by (vm_compute; reflexivity).
  split; [exact H|].
  exact (date_entry_publishes_parseable "2024" "02" "29" "2024-02-29" H).
Defined.

(** The 29th of February of a year that has none. *)
Example date_entry_rejects :
  _update_var "2023" "02" "29" = Ok "" ∧ _update_var "2024" "" "29" = Ok "" ∧
  _update_var "2024" "x" "29" = Ok "".
Proof. by vm_compute. Qed.

(** ** Attachments on disk *)

Lemma mkdir_outcome faults p w :
  files (snd (mkdir faults p w)) = files w ∧
  dialogs (snd (mkdir faults p w)) = dialogs w ∧
  sleeps (snd (mkdir faults p w)) = sleeps w ∧
  stdout (snd (mkdir faults p w)) = stdout w ∧
  (dirs (snd (mkdir faults p w)) = dirs w ∨
   dirs (snd (mkdir faults p w)) = {[p]} ∪ dirs w) ∧
  (∀ q, path_exists w q = true → path_exists (snd (mkdir faults p w)) q = true).
Proof.
  unfold mkdir. destruct (faults (Mkdir p)); [by auto 10|].
  case_bool_decide; [by auto 10|]. cbn [snd files dirs dialogs sleeps stdout].
  split_and!; auto.
  intros q. rewrite !path_exists_spec. cbn [files dirs]. set_solver.
Qed.

Lemma copy2_outcome faults src dst w :
  match copy2 faults src dst w with
  | (Ok _, w') =>
      ∃ f, files w !! src = Some f ∧ files w' = <[dst := f]> (files w) ∧
           dialogs w' = dialogs w
  | (Raise _, w') => w' = w
  end.
Proof.
  unfold copy2. destruct (faults (Copy src dst)); [done|].
  destruct (files w !! src) as [f|]; [|done]. by exists f.
Qed.

(** X12.  [add_attachment] always ends, and never overwrites: every file
    that was on the disk is there afterwards with the content it had.
    Either the table of attachments is as before, or one row was added
    whose path did not exist before and now holds the content of the
    chosen file. *)
Theorem add_attachment_overwrites_nothing faults (BASE_DIR : string)
    (self : AttachmentWindowBase) (file_path : string) (w : world) :
  ∃ self' w',
    add_attachment faults BASE_DIR self file_path w = Some (self', w') ∧
    (∀ p f, files w !! p = Some f → files w' !! p = Some f) ∧
    (attachment_paths self' = attachment_paths self ∨
     ∃ dest f,
       path_exists w dest = false ∧ files w !! file_path = Some f ∧
       files w' !! dest = Some f ∧
       attachment_paths self' = attachment_paths self ++ [dest]).
Proof.
  unfold add_attachment.
  destruct (negb (str_truthy file_path)); [by eauto 10|].
  set (dir := attachments_dir_of BASE_DIR self).
  pose proof (mkdir_outcome faults dir w) as (Hfiles & _ & _ & _ & _ & Hex).
  destruct (mkdir faults dir w) as [[[]|e] w1]; cbn [snd] in Hfiles, Hex;
    [|eexists _, _; split; [done|]; cbn [snd messagebox files];
      rewrite Hfiles; auto].
  destruct (unique_dest_total w1 dir (basename file_path))
    as (dest & -> & Hfree).
  assert (path_exists w dest = false) as Hfree0.
  { destruct (path_exists w dest) eqn:E; [|done].
    apply Hex in E. congruence. }
  assert (files w !! dest = None) as Hnone.
  { apply not_elem_of_dom. intros Hin.
    apply not_true_iff_false in Hfree0. apply Hfree0, path_exists_spec.
    set_solver. }
  pose proof (copy2_outcome faults file_path dest w1) as Hcopy.
  destruct (copy2 faults file_path dest w1) as [[[]|e] w2].
  2:{ subst w2. eexists _, _. split; [done|]. cbn [snd messagebox files].
      rewrite Hfiles. auto. }
  destruct Hcopy as (f & Hsrc & Hfiles2 & _). rewrite Hfiles in Hsrc, Hfiles2.
  assert (∀ p g, files w !! p = Some g → files w2 !! p = Some g) as Hkept.
  { intros p g Hp. rewrite Hfiles2.
    rewrite lookup_insert_ne; [done|]. intros ->. congruence. }
  unfold attachment_paths.
  destruct (String.eqb (event_type self) "Exam") eqn:Htype.
  - unfold add_exam_attachment.
    destruct (has_exam (conn (db self)) (event_id self));
      (eexists _, _; split; [done|]; cbn [snd messagebox files db event_type];
       rewrite ?Htype; split; [done|]); [|by left].
    right. exists dest, f. split_and!; [done..| |].
    + rewrite Hfiles2. apply lookup_insert_eq.
    + cbn [with_conn conn exam_attachments]. by rewrite fmap_app.
  - unfold add_intervention_attachment.
    destruct (has_intervention (conn (db self)) (event_id self));
      (eexists _, _; split; [done|]; cbn [snd messagebox files db event_type];
       rewrite ?Htype; split; [done|]); [|by left].
    right. exists dest, f. split_and!; [done..| |].
    + rewrite Hfiles2. apply lookup_insert_eq.
    + cbn [with_conn conn intervention_attachments]. by rewrite fmap_app.
Qed.

(** A second file of the same name gets a name of its own. *)
Example second_scan_gets_a_suffix :
  (attachment_paths ∘ fst) <$>
    (add_attachment no_faults "/opt/gait" exam_window "/home/user/scan.pdf"
                    scan_world
     ≫= λ '(self1, w1),
          add_attachment no_faults "/opt/gait" self1 "/home/user/scan.pdf" w1)
  = Some ["attachments/exams/1/2024-01-10/a.pdf";
          "attachments/exams/P-002/2024-03-05/c.pdf";
          "/opt/gait/attachments/exams/1/2024-01-10/scan.pdf";
          "/opt/gait/attachments/exams/1/2024-01-10/scan_1.pdf"].
Proof. vm_compute. reflexivity. Qed.

Lemma keys_after_delete {A} (key : A → Z) (k : Z) (l : list A) :
  key <$> filter (λ a, key a ≠ k) l = filter (λ i, i ≠ k) (key <$> l).
Proof.
  induction l as [|a l IH]; [done|].
  rewrite fmap_cons, !filter_cons.
  destruct (decide (key a ≠ k)); by rewrite ?fmap_cons, IH.
Qed.

Lemma os_remove_outcome fault path w :
  dialogs (snd (os_remove fault path w)) = dialogs w ∧
  (∀ p, p ≠ path →
        files (snd (os_remove fault path w)) !! p = files w !! p) ∧
  (fault = None → files (snd (os_remove fault path w)) !! path = None) ∧
  (is_Some fault → files (snd (os_remove fault path w)) = files w).
Proof.
  unfold os_remove. destruct fault as [e|].
  - split_and!; [done..|]. done.
  - destruct (files w !! path) eqn:Hp; cbn [snd files dialogs].
    + split_and!; [done| | |by intros [? [=]]].
      * intros p Hne. by rewrite lookup_delete_ne.
      * intros _. apply lookup_delete_eq.
    + split_and!; [done..|by intros [? [=]]].
Qed.

(** X13.  Once the user has confirmed, [delete_attachment] removes the
    selected row from the table whatever happens to the file: no other
    row goes, no dialog is shown, no other file is touched.  The file
    itself is gone afterwards unless the operating system refused to
    remove it, and then the disk is as it was. *)
Theorem delete_attachment_is_best_effort (remove_fault : option exn)
    (self : AttachmentWindowBase) (file_id : Z) (desc path : string)
    (w : world) :
  let self' :=
    fst (delete_attachment remove_fault self (Some file_id) desc path true w) in
  let w' :=
    snd (delete_attachment remove_fault self (Some file_id) desc path true w) in
  attachment_ids self' = filter (λ i, i ≠ file_id) (attachment_ids self) ∧
  dialogs w' = dialogs w ∧
  (∀ p, p ≠ path → files w' !! p = files w !! p) ∧
  (remove_fault = None → str_truthy path = true → files w' !! path = None) ∧
  (is_Some remove_fault → files w' = files w).
Proof.
  cbn zeta. unfold delete_attachment. cbn [negb fst snd]. split.
  { unfold attachment_ids. cbn [db event_type].
    destruct (String.eqb (event_type self) "Exam").
    - cbn [delete_exam_attachment with_conn conn exam_attachments].
      apply keys_after_delete.
    - cbn [delete_intervention_attachment with_conn conn
             intervention_attachments].
      apply keys_after_delete. }
  destruct (str_truthy path) eqn:Htruthy; cbn [andb].
  2:{ split_and!; done. }
  destruct (path_exists w path) eqn:Hex.
  - pose proof (os_remove_outcome remove_fault path w) as (Hd & Hfr & Hrm & Hft).
    destruct (os_remove remove_fault path w) as [[[]|e] w1]; cbn [snd] in *;
      split_and!; auto.
  - split_and!; [done..| |done].
    intros _ _. apply not_elem_of_dom. intros Hin.
    apply not_true_iff_false in Hex. apply Hex, path_exists_spec. set_solver.
Qed.

Lemma delete_attachment_is_best_effort_witness :
  let self' :=
    fst (delete_attachment (Some (OSError "[Errno 13] Permission denied"))
           stored_window (Some 3) "scan.pdf"
           "/opt/gait/attachments/exams/1/2024-01-10/scan.pdf" true
           stored_world) in
  let w' :=
    snd (delete_attachment (Some (OSError "[Errno 13] Permission denied"))
           stored_window (Some 3) "scan.pdf"
           "/opt/gait/attachments/exams/1/2024-01-10/scan.pdf" true
           stored_world) in
  attachment_ids stored_window = [1; 2; 3] ∧
  attachment_ids self' = [1; 2] ∧ files w' = files stored_world.
Proof.
  pose proof (delete_attachment_is_best_effort
                (Some (OSError "[Errno 13] Permission denied"))
                stored_window 3 "scan.pdf"
                "/opt/gait/attachments/exams/1/2024-01-10/scan.pdf"
                stored_world) as (Hids & _ & _ & _ & Hfiles).
  split_and!; [by vm_compute|rewrite Hids; by vm_compute|].
  apply Hfiles. by eexists.
Defined.

(** ** Backups on disk *)

Lemma sqlite_connect_outcome faults p w :
  (∀ q, q ≠ p →
        files (snd (sqlite_connect faults p w)) !! q = files w !! q) ∧
  dirs (snd (sqlite_connect faults p w)) = dirs w ∧
  dialogs (snd (sqlite_connect faults p w)) = dialogs w ∧
  sleeps (snd (sqlite_connect faults p w)) = sleeps w.
Proof.
  unfold sqlite_connect. destruct (faults (Connect p)); [done|].
  case_bool_decide; [done|]. destruct (files w !! p); [done|].
  cbn [snd files dirs dialogs sleeps]. split_and!; [|done..].
  intros q Hq. by rewrite lookup_insert_ne.
Qed.

Lemma sqlite_backup_outcome faults src p w :
  (∀ q, q ≠ p →
        files (snd (sqlite_backup faults src p w)) !! q = files w !! q) ∧
  dirs (snd (sqlite_backup faults src p w)) = dirs w ∧
  dialogs (snd (sqlite_backup faults src p w)) = dialogs w ∧
  sleeps (snd (sqlite_backup faults src p w)) = sleeps w.
Proof.
  unfold sqlite_backup. destruct (faults (Backup p)); [done|].
  destruct (files w !! p) as [[]|]; [done|..];
    (cbn [snd files dirs dialogs sleeps]; split_and!; [|done..];
     intros q Hq; by rewrite lookup_insert_ne).
Qed.


Lemma digit_char_inj a b : digit_char a = digit_char b → a mod 10 = b mod 10.
Proof.
  unfold digit_char. intros H%(f_equal N_of_ascii).
  pose proof (Z.mod_pos_bound a 10 eq_refl).
  pose proof (Z.mod_pos_bound b 10 eq_refl).
  rewrite !N_ascii_embedding in H by lia. lia.
Qed.

Lemma four_digits y :
  0 ≤ y ≤ 9999 →
  y = 1000 * ((y / 1000) mod 10) + 100 * ((y / 100) mod 10)
      + 10 * ((y / 10) mod 10) + y mod 10.
Proof.
  intros Hy. apply Z.eqb_eq.
  apply (checked_on_range
           (λ y, y =? 1000 * ((y / 1000) mod 10) + 100 * ((y / 100) mod 10)
                      + 10 * ((y / 10) mod 10) + y mod 10) 0 10000); [|lia].
  vm_compute. reflexivity.
Qed.

Lemma two_digits m : 0 ≤ m ≤ 99 → m = 10 * ((m / 10) mod 10) + m mod 10.
Proof.
  intros Hm. apply Z.eqb_eq.
  apply (checked_on_range
           (λ m, m =? 10 * ((m / 10) mod 10) + m mod 10) 0 100); [|lia].
  vm_compute. reflexivity.
Qed.

Lemma strftime_Ymd_inj d1 d2 :
  valid_date d1 → valid_date d2 → strftime_Ymd d1 = strftime_Ymd d2 → d1 = d2.
Proof.
  destruct d1 as [y1 m1 dd1], d2 as [y2 m2 dd2].
  unfold valid_date, strftime_Ymd. cbn [Date.year Date.month Date.day].
  intros (Hy1 & Hm1 & Hd1) (Hy2 & Hm2 & Hd2) H%(f_equal list_ascii_of_string).
  rewrite !list_ascii_of_string_of_list_ascii in H.
  injection H as Ha%digit_char_inj Hb%digit_char_inj Hc%digit_char_inj
    He%digit_char_inj Hf%digit_char_inj Hg%digit_char_inj Hh%digit_char_inj
    Hi%digit_char_inj.
  f_equal.
  - rewrite (four_digits y1), (four_digits y2) by lia. congruence.
  - rewrite (two_digits m1), (two_digits m2) by lia. congruence.
  - rewrite (two_digits dd1), (two_digits dd2) by lia. congruence.
Qed.

(** X15.  Snapshots of different days never share a file: the name of
    the backup determines its date. *)
Theorem backups_of_different_days_differ (backup_dir path : string)
    (d1 d2 : Date.t) :
  valid_date d1 → valid_date d2 → d1 ≠ d2 →
  path_join backup_dir (backup_name path d1)
    ≠ path_join backup_dir (backup_name path d2).
Proof.
  intros Hv1 Hv2 Hne Heq. apply Hne, strftime_Ymd_inj; [done..|].
  unfold backup_name in Heq. cbn zeta in Heq.
  destruct (splitext (basename path)).1 as [|c base].
  - change ("" +:+ "_backup_" +:+ ?s)
      with (String "_" ("backup_" +:+ s)) in Heq.
    apply path_join_same_head in Heq. apply (inj _) in Heq.
    by apply app_inv_tail_string in Heq.
  - change (String c base +:+ "_backup_" +:+ strftime_Ymd d1 +:+ ".db")
      with (String c (base +:+ "_backup_" +:+ strftime_Ymd d1 +:+ ".db"))
      in Heq.
    change (String c base +:+ "_backup_" +:+ strftime_Ymd d2 +:+ ".db")
      with (String c (base +:+ "_backup_" +:+ strftime_Ymd d2 +:+ ".db"))
      in Heq.
    apply path_join_same_head in Heq.
    apply (inj (String.app base)) in Heq.
    apply (inj (String.app "_backup_")) in Heq.
    by apply app_inv_tail_string in Heq.
Qed.

Lemma backups_of_different_days_differ_witness :
  valid_date jan_9 ∧
  path_join "backups" (backup_name "data/health_records.db" jan_9)
    ≠ path_join "backups"
        (backup_name "data/health_records.db"
           {| Date.year := 2024; Date.month := 1; Date.day := 10 |}).
Proof.
  assert (valid_date jan_9) as Hjan by (unfold valid_date; simpl; lia).
  split; [exact Hjan|].
  apply backups_of_different_days_differ;
    [exact Hjan|unfold valid_date; simpl; lia|discriminate].
Defined.

(** ** The lists of one patient *)

#[global] Instance by_exam_date_desc_dec : RelDecision by_exam_date_desc.
Proof. intros p q. unfold by_exam_date_desc. apply _. Defined.

#[global] Instance by_exam_date_desc_total : Total by_exam_date_desc.
Proof. intros p q. unfold by_exam_date_desc. destruct (String.le_total (Exam.exam_date p) (Exam.exam_date q)); auto. Qed.

#[global] Instance by_exam_date_desc_trans : Transitive by_exam_date_desc.
Proof.
  intros p q r. unfold by_exam_date_desc. intros H1 H2.
  by apply (transitivity (R := String.le) H2).
Qed.

#[global] Instance by_intervention_date_desc_dec :
  RelDecision by_intervention_date_desc.
Proof. intros p q. unfold by_intervention_date_desc. apply _. Defined.

#[global] Instance by_intervention_date_desc_total :
  Total by_intervention_date_desc.
Proof.
  intros p q. unfold by_intervention_date_desc.
  destruct (String.le_total (Intervention.intervention_date p)
                            (Intervention.intervention_date q)); auto.
Qed.

#[global] Instance by_intervention_date_desc_trans :
  Transitive by_intervention_date_desc.
Proof.
  intros p q r. unfold by_intervention_date_desc. intros H1 H2.
  by apply (transitivity (R := String.le) H2).
Qed.

Lemma patient_lists_of (self : Database) (patient_id : Z) :
  get_exams self patient_id
    ≡ₚ filter (λ e, Exam.patient_id e = patient_id) (exams (conn self)) ∧
  get_interventions self patient_id
    ≡ₚ filter (λ i, Intervention.patient_id i = patient_id)
              (interventions (conn self)).
Proof. split; apply merge_sort_Permutation. Qed.

(** X16.  [get_exams] and [get_interventions] return the rows of the
    patient, each once, and no other row, the newest first. *)
Theorem patient_lists_newest_first (self : Database) (patient_id : Z) :
  (StronglySorted by_exam_date_desc (get_exams self patient_id) ∧
   get_exams self patient_id
     ≡ₚ filter (λ e, Exam.patient_id e = patient_id) (exams (conn self))) ∧
  (StronglySorted by_intervention_date_desc
     (get_interventions self patient_id) ∧
   get_interventions self patient_id
     ≡ₚ filter (λ i, Intervention.patient_id i = patient_id)
               (interventions (conn self))).
Proof.
  unfold get_exams, get_interventions. split_and!.
  - apply (StronglySorted_merge_sort _).
  - apply merge_sort_Permutation.
  - apply (StronglySorted_merge_sort _).
  - apply merge_sort_Permutation.
Qed.

(** ** The timeline *)

Lemma insert_desc_Permutation x l : insert_desc x l ≡ₚ x :: l.
Proof.
  induction l as [|y l IH]; [done|]. cbn [insert_desc].
  destruct (String.leb _ _); [|done]. rewrite IH. apply Permutation_swap.
Qed.

Lemma newest_first_leb a b : String.leb (ev_date a) (ev_date b) = true ↔ newest_first b a.
Proof. unfold newest_first, String.le. by rewrite Is_true_true. Qed.

Lemma insert_desc_sorted x l :
  StronglySorted newest_first l → StronglySorted newest_first (insert_desc x l).
Proof.
  induction 1 as [|y l Hs IH Hall]; [repeat constructor|].
  cbn [insert_desc]. destruct (String.leb (ev_date x) (ev_date y)) eqn:Hle.
  - apply newest_first_leb in Hle. constructor; [done|].
    rewrite insert_desc_Permutation. by constructor.
  - assert (newest_first x y) as Hxy.
    { destruct (String.le_total (ev_date x) (ev_date y)) as [H|H]; [|done].
      unfold String.le in H. apply Is_true_true in H. congruence. }
    constructor; [by constructor|]. constructor; [done|].
    eapply Forall_impl; [done|]. intros z Hz. cbv beta in Hz.
    unfold newest_first in *. by transitivity (ev_date y).
Qed.

Lemma sort_by_date_desc_spec events :
  StronglySorted newest_first (sort_by_date_desc events) ∧
  sort_by_date_desc events ≡ₚ events.
Proof.
  unfold sort_by_date_desc.
  assert (∀ acc, StronglySorted newest_first acc →
            StronglySorted newest_first
              (foldl (λ sorted x, insert_desc x sorted) acc events) ∧
            foldl (λ sorted x, insert_desc x sorted) acc events
              ≡ₚ acc ++ events) as Hgen.
  { induction events as [|x events IH]; intros acc Hacc.
    - by rewrite app_nil_r.
    - cbn [foldl].
      destruct (IH (insert_desc x acc)) as [Hs Hp];
        [by apply insert_desc_sorted|].
      split; [done|]. rewrite Hp, insert_desc_Permutation.
      simpl. apply Permutation_middle. }
  apply (Hgen []). constructor.
Qed.

(** X17.  The timeline shows every exam and every intervention of the
    patient once, and nothing else, the newest on top. *)
Theorem timeline_newest_first (self : PatientDetailWindow) :
  StronglySorted newest_first (timeline_events self) ∧
  timeline_events self
    ≡ₚ (exam_event
          <$> filter (λ e, Exam.patient_id e = pd_patient_id self)
                     (exams (conn (pd_db self)))) ++
       (intervention_event
          <$> filter (λ i, Intervention.patient_id i = pd_patient_id self)
                     (interventions (conn (pd_db self)))).
Proof.
  unfold timeline_events.
  split; [apply sort_by_date_desc_spec|].
  rewrite (proj2 (sort_by_date_desc_spec _)).
  unfold get_exams, get_interventions. by rewrite !merge_sort_Permutation.
Qed.

Example timeline_of_the_first_patient :
  (refresh_timeline (PatientDetailWindow_init clinic_db 1)).1
    = [("Intervention_1",
        ("2024-02-01", "33y, 9m", "Intervention", "Orthosis", "", ""));
       ("Exam_1",
        ("2024-01-10", "33y, 8m", "Exam", "Gait Assessment", "", ""))].
Proof. vm_compute. reflexivity. Qed.

Lemma exam_iid e :
  timeline_iid (exam_event e) = "Exam_" +:+ pretty (Exam.exam_id e).
Proof. done. Qed.

Lemma intervention_iid i :
  timeline_iid (intervention_event i)
    = "Intervention_" +:+ pretty (Intervention.intervention_id i).
Proof. done. Qed.

Lemma exam_iids_distinct (l : list Exam.row) :
  NoDup (Exam.exam_id <$> l) → NoDup (timeline_iid <$> (exam_event <$> l)).
Proof.
  intros Hnd. rewrite <- list_fmap_compose.
  change (timeline_iid ∘ exam_event)
    with ((λ i, "Exam_" +:+ pretty i) ∘ Exam.exam_id).
  rewrite list_fmap_compose.
  assert (Inj (=) (=) (λ i : Z, "Exam_" +:+ pretty i)) as Hinj.
  { intros i j H. apply (inj (String.app "Exam_")) in H.
    by apply (inj pretty). }
  by apply (NoDup_fmap_2 _).
Qed.

Lemma intervention_iids_distinct (l : list Intervention.row) :
  NoDup (Intervention.intervention_id <$> l) →
  NoDup (timeline_iid <$> (intervention_event <$> l)).
Proof.
  intros Hnd. rewrite <- list_fmap_compose.
  change (timeline_iid ∘ intervention_event)
    with ((λ i, "Intervention_" +:+ pretty i) ∘ Intervention.intervention_id).
  rewrite list_fmap_compose.
  assert (Inj (=) (=) (λ i : Z, "Intervention_" +:+ pretty i)) as Hinj.
  { intros i j H. apply (inj (String.app "Intervention_")) in H.
    by apply (inj pretty). }
  by apply (NoDup_fmap_2 _).
Qed.

Lemma sorted_keys_distinct {A} (key : A → Z) (P : A → Prop)
    `{!∀ x, Decision (P x)} (l l' : list A) seq :
  keys_ok (key <$> l) seq → l' ≡ₚ filter P l → NoDup (key <$> l').
Proof.
  intros Hkeys ->. apply StronglySorted_lt_NoDup.
  by apply (keys_ok_filter key P l seq) in Hkeys as (_ & ? & _).
Qed.

(** The identifier of a row determines the event it stands for. *)
Lemma timeline_iid_inj a b :
  ev_label a ∈ ["Exam"; "Intervention"] →
  ev_label b ∈ ["Exam"; "Intervention"] →
  timeline_iid a = timeline_iid b →
  ev_label a = ev_label b ∧ ev_id a = ev_id b.
Proof.
  unfold timeline_iid. intros Ha Hb.
  apply list_elem_of_In in Ha, Hb. simpl in Ha, Hb.
  destruct Ha as [<-|[<-|[]]], Hb as [<-|[<-|[]]]; intros H.
  - apply (inj (String.app "Exam")) in H.
    apply (inj (String.app "_")) in H. by apply (inj pretty) in H.
  - by rewrite !app_cons in H.
  - by rewrite !app_cons in H.
  - apply (inj (String.app "Intervention")) in H.
    apply (inj (String.app "_")) in H. by apply (inj pretty) in H.
Qed.

Lemma timeline_labels (self : PatientDetailWindow) ev :
  ev ∈ timeline_events self → ev_label ev ∈ ["Exam"; "Intervention"].
Proof.
  unfold timeline_events. rewrite (proj2 (sort_by_date_desc_spec _)).
  rewrite elem_of_app, !list_elem_of_fmap.
  intros [(e & -> & _)|(i & -> & _)]; cbn [ev_label exam_event intervention_event];
    set_solver.
Qed.

Lemma event_map_lookup (events : list timeline_event) ev :
  (∀ a, a ∈ events → ev_label a ∈ ["Exam"; "Intervention"]) →
  ev ∈ events →
  foldl (λ (m : gmap string (string * Z)) ev,
           <[timeline_iid ev := (ev_label ev, ev_id ev)]> m) ∅ events
    !! timeline_iid ev = Some (ev_label ev, ev_id ev).
Proof.
  induction events as [|x events IH] using rev_ind; [by intros _ ?%elem_of_nil|].
  intros Hlabels Hin. rewrite foldl_app. cbn [foldl].
  destruct (decide (timeline_iid x = timeline_iid ev)) as [Heq|Hne].
  - rewrite Heq, lookup_insert_eq.
    apply timeline_iid_inj in Heq as [-> ->]; [done| |];
      apply Hlabels; [set_solver|done].
  - rewrite lookup_insert_ne by done. apply IH.
    + intros a Ha. apply Hlabels. set_solver.
    + apply elem_of_app in Hin as [Hin|Hin]; [done|].
      apply list_elem_of_singleton in Hin. by subst.
Qed.

(** X18.  In every database the application can reach, the rows of the
    timeline have identifiers of their own, so that inserting them into
    the tree never meets an identifier twice, and the event map sends
    the identifier of each row to its kind and its key. *)
Theorem timeline_rows_are_told_apart (self : PatientDetailWindow) :
  reachable (pd_db self) →
  NoDup (fst <$> (refresh_timeline self).1) ∧
  ∀ ev, ev ∈ timeline_events self →
        (refresh_timeline self).2 !! timeline_iid ev
          = Some (ev_label ev, ev_id ev).
Proof.
  intros (_ & Hexams & _ & Hints & _)%reachable_well_keyed.
  unfold refresh_timeline. cbn [fst snd]. split.
  - rewrite <- list_fmap_compose.
    change (fst ∘ timeline_row self) with timeline_iid.
    unfold timeline_events. rewrite (proj2 (sort_by_date_desc_spec _)).
    rewrite fmap_app. apply NoDup_app. split_and!.
    + apply exam_iids_distinct.
      eapply sorted_keys_distinct; [done|].
      apply (proj1 (patient_lists_of _ _)).
    + intros iid (e & -> & He)%list_elem_of_fmap (i & Hi & Hin)%list_elem_of_fmap.
      apply list_elem_of_fmap in He as (e' & -> & _).
      apply list_elem_of_fmap in Hin as (i' & -> & _).
      rewrite exam_iid, intervention_iid in Hi. by rewrite !app_cons in Hi.
    + apply intervention_iids_distinct.
      eapply sorted_keys_distinct; [done|].
      apply (proj2 (patient_lists_of _ _)).
  - intros ev Hev. apply event_map_lookup; [|done].
    intros a. apply timeline_labels.
Qed.

Lemma timeline_rows_are_told_apart_witness :
  reachable (pd_db (PatientDetailWindow_init clinic_db 1)) ∧
  NoDup (fst <$> (refresh_timeline (PatientDetailWindow_init clinic_db 1)).1).
Proof.
  assert (reachable (pd_db (PatientDetailWindow_init clinic_db 1))) as Hreach
    by apply clinic_db_reachable.
  split; [exact Hreach|].
  exact (proj1 (timeline_rows_are_told_apart
                  (PatientDetailWindow_init clinic_db 1) Hreach)).
Defined.

(** ** Editing a patient *)

Lemma get_after_update (upd : Patient.row → Patient.row)
    (l : list Patient.row) (k : Z) :
  (∀ p, Patient.patient_id (upd p) = Patient.patient_id p) →
  head (filter (λ p, Patient.patient_id p = k) (upd <$> l))
    = upd <$> head (filter (λ p, Patient.patient_id p = k) l).
Proof.
  intros Hid. induction l as [|x l IH]; [done|].
  rewrite fmap_cons, !filter_cons, Hid.
  by destruct (decide (Patient.patient_id x = k)).
Qed.

Lemma get_patient_found self pid old :
  get_patient self pid = Some old →
  old ∈ patients (conn self) ∧ Patient.patient_id old = pid.
Proof.
  unfold get_patient. intros Hhead.
  assert (old ∈ filter (λ p, Patient.patient_id p = pid) (patients (conn self)))
    as Hin.
  { destruct (filter _ _) as [|x l]; [done|].
    injection Hhead as ->. apply list_elem_of_here. }
  by apply list_elem_of_filter in Hin as [? ?].
Qed.

(** X19.  In a database the application can reach, saving a patient
    under the code the patient already has always succeeds: the row then
    holds the new values, keeps its key, its height and its assistive
    device, and every other patient reads as before. *)
Theorem edit_keeping_the_code_succeeds (self : Database) (patient_id : Z)
    (old : Patient.row) (first_name last_name birth_date : string)
    (diagnosis gender address post_number city country
       phone mobile email : option string) :
  reachable self →
  get_patient self patient_id = Some old →
  ∃ self',
    update_patient self patient_id first_name last_name birth_date
      diagnosis gender (Patient.patient_code old) address post_number city
      country phone mobile email = (Ok (), self') ∧
    get_patient self' patient_id
      = Some (edited old first_name last_name birth_date diagnosis gender
                (Patient.patient_code old) address post_number city country
                phone mobile email) ∧
    ∀ other, other ≠ patient_id →
             get_patient self' other = get_patient self other.
Proof.
  intros Hreach Hget.
  pose proof (reachable_codes_unique self Hreach) as Hnd.
  pose proof (get_patient_found self patient_id old Hget) as [Hin Hid].
  unfold update_patient. cbn zeta.
  destruct (filter (λ p, Patient.patient_id p = patient_id)
                   (patients (conn self))) as [|hit hits] eqn:Hhit.
  { unfold get_patient in Hget. by rewrite Hhit in Hget. }
  assert (code_in_use (Patient.patient_code old)
            (filter (λ p, Patient.patient_id p ≠ patient_id)
                    (patients (conn self))) = false) as ->.
  { unfold code_in_use. destruct (Patient.patient_code old) as [c|] eqn:Hc;
      [|done].
    apply bool_decide_eq_false. intros (q & Hq & Hqin)%list_elem_of_fmap.
    apply list_elem_of_filter in Hqin as [Hne Hqin].
    assert (old = q) as <-
      by (by apply (same_code_same_row (patients (conn self)) old q c)).
    done. }
  eexists. split; [done|].
  unfold get_patient. cbn [with_conn conn patients]. split.
  - rewrite get_after_update by (intros p; by case_bool_decide).
    unfold get_patient in Hget. rewrite Hget. cbn [fmap option_fmap option_map].
    rewrite bool_decide_eq_true_2 by done. done.
  - intros other Hother.
    rewrite get_after_update by (intros p; by case_bool_decide).
    destruct (head _) as [p|] eqn:Hhead; [|done].
    cbn [fmap option_fmap option_map].
    apply (get_patient_found self other p) in Hhead as [_ Hp].
    rewrite bool_decide_eq_false_2 by congruence. done.
Qed.

Lemma edit_keeping_the_code_succeeds_witness :
  reachable coded_db ∧
  get_patient coded_db 1 = Some coded_jane ∧
  ∃ self',
    update_patient coded_db 1 "Jane" "Roe" "1990-05-01" None None
      (Patient.patient_code coded_jane) None None None None None None None
      = (Ok (), self').
Proof.
  assert (reachable coded_db) as Hreach
    by (repeat (eapply reach_step; [|constructor]); apply reach_init).
  assert (get_patient coded_db 1 = Some coded_jane) as Hold
    by (vm_compute; reflexivity).
  split; [exact Hreach|]. split; [exact Hold|].
  destruct (edit_keeping_the_code_succeeds coded_db 1 coded_jane "Jane" "Roe"
              "1990-05-01" None None None None None None None None None
              Hreach Hold) as (self' & Hupd & _).
  by exists self'.
Defined.



(** ** The forms' required fields *)





(** ** The daily backup *)

Lemma backup_database_returns faults today self backup_dir w :
  ∃ w', backup_database faults today self backup_dir w = (Ok (), w') ∧
        sleeps w' = sleeps w.
Proof.
  unfold backup_database, try_except, backup_try_block, mbind, io_bind.
  pose proof (mkdir_outcome faults backup_dir w) as (_ & _ & Hs1 & _).
  destruct (mkdir faults backup_dir w) as [[[]|e1] w1]; cbn [snd] in Hs1;
    [|by eexists].
  set (dest := path_join backup_dir (backup_name (db_path self) today)).
  pose proof (sqlite_connect_outcome faults dest w1) as (_ & _ & _ & Hs2).
  destruct (sqlite_connect faults dest w1) as [[[]|e2] w2]; cbn [snd] in Hs2;
    [|eexists; split; [done|]; cbn [print sleeps]; congruence].
  pose proof (sqlite_backup_outcome faults (conn self) dest w2)
    as (_ & _ & _ & Hs3).
  destruct (sqlite_backup faults (conn self) dest w2) as [[[]|e3] w3];
    cbn [snd] in Hs3; eexists; (split; [done|]); cbn [print sleeps];
    congruence.
Qed.

Lemma max_1_bounds (x : Q) :
  (1 <= max_1 x)%Q ∧ ((x <= 86400)%Q → (max_1 x <= 86400)%Q).
Proof.
  unfold max_1. destruct (Qle_bool x 1) eqn:Hle.
  - split; [apply Qle_refl|]. intros _. by apply Qle_bool_iff.
  - split; [|done]. apply Qlt_le_weak, Qnot_le_lt. intros H.
    apply Qle_bool_iff in H. congruence.
Qed.

(** X23.  The backup thread sleeps once before each backup, never less
    than a second and, when the clock shows a time of day, never more
    than a day; no failure of a backup changes that. *)
Theorem scheduler_sleeps_between_backups (cycles : nat)
    (faults : nat → syscall → option exn) (clock : nat → datetime)
    (self : Database) (backup_dir : string) (w : world) :
  ∃ waits,
    sleeps (snd (backup_loop cycles faults clock self backup_dir w))
      = sleeps w ++ waits ∧
    length waits = cycles ∧
    Forall (λ s, (1 <= s)%Q) waits ∧
    ((∀ k, (0 <= second_of_day (clock k))%Q) →
     Forall (λ s, (s <= 86400)%Q) waits).
Proof.
  revert faults clock w.
  induction cycles as [|cycles IH]; intros faults clock w.
  - exists []. cbn. rewrite app_nil_r. split_and!; by constructor.
  - cbn [backup_loop]. unfold mbind at 1, io_bind at 1. cbn [sleep].
    unfold mbind at 1, io_bind at 1.
    match goal with |- context [backup_database ?f ?t ?s ?d ?w1] =>
      destruct (backup_database_returns f t s d w1) as (w2 & -> & Hs2) end.
    cbn [sleeps] in Hs2.
    destruct (IH (λ k, faults (S k)) (λ k, clock (S (S k))) w2)
      as (waits & Hsleeps & Hlen & Hlow & Hhigh).
    exists (max_1 (86400 - second_of_day (clock 0%nat)) :: waits).
    split_and!.
    + rewrite Hsleeps, Hs2. by rewrite <- app_assoc.
    + simpl. by rewrite Hlen.
    + constructor; [apply max_1_bounds|done].
    + intros Hclock. constructor; [|by apply Hhigh].
      apply max_1_bounds.
      specialize (Hclock 0%nat). revert Hclock.
      generalize (second_of_day (clock 0%nat)). intros s Hs.
      unfold Qle, Qminus, Qplus, Qopp in *. simpl in *. nia.
Qed.

Lemma scheduler_sleeps_between_backups_witness :
  (∀ k : nat, (0 <= second_of_day noon)%Q) ∧
  ∃ waits,
    sleeps (snd (backup_loop 2 (λ _, no_faults) (λ _, noon) jane_db "backups"
                   fresh_world))
      = sleeps fresh_world ++ waits ∧
    length waits = 2%nat ∧
    Forall (λ s, (1 <= s)%Q) waits ∧ Forall (λ s, (s <= 86400)%Q) waits.
Proof.
  assert (∀ k : nat, (0 <= second_of_day noon)%Q) as Hclock by done.
  split; [exact Hclock|].
  destruct (scheduler_sleeps_between_backups 2 (λ _, no_faults) (λ _, noon)
              jane_db "backups" fresh_world)
    as (waits & Hsleeps & Hlen & Hlow & Hhigh).
  exists waits. split_and!; [exact Hsleeps|exact Hlen|exact Hlow|].
  exact (Hhigh Hclock).
Defined.

(** ** Setting the date widget *)

Lemma year_text_reads_back y :
  1 ≤ y ≤ 9999 → str_truthy (pretty y) = true ∧ py_int (pretty y) = Ok y.
Proof.
  intros Hy.
  assert (reads_back_as (pretty y) y = true) as H.
  { apply (checked_on_range (λ y, reads_back_as (pretty y) y) 1 9999); [|lia].
    vm_compute. reflexivity. }
  unfold reads_back_as in H. apply andb_true_iff in H as [Ht Hv].
  split; [done|]. destruct (py_int (pretty y)); [|done].
  by apply Z.eqb_eq in Hv as ->.
Qed.

Lemma two_digit_text_reads_back z :
  1 ≤ z ≤ 31 →
  str_truthy (format_0d 2 z) = true ∧ py_int (format_0d 2 z) = Ok z.
Proof.
  intros Hz.
  assert (reads_back_as (format_0d 2 z) z = true) as H.
  { apply (checked_on_range (λ z, reads_back_as (format_0d 2 z) z) 1 31);
      [|lia].
    vm_compute. reflexivity. }
  unfold reads_back_as in H. apply andb_true_iff in H as [Ht Hv].
  split; [done|]. destruct (py_int (format_0d 2 z)); [|done].
  by apply Z.eqb_eq in Hv as ->.
Qed.

(** The boxes hold a date: the variable gets it in ISO form. *)
Lemma update_var_of_date y m d dt :
  Date.make y m d = Ok dt →
  _update_var (pretty y) (format_0d 2 m) (format_0d 2 d)
    = Ok (format_0d 4 y +:+ "-" +:+ format_0d 2 m +:+ "-" +:+ format_0d 2 d).
Proof.
  intros Hmake. pose proof Hmake as (Hy & Hm & Hd & _)%make_inv.
  destruct (year_text_reads_back y Hy) as [Hty Hpy].
  destruct (two_digit_text_reads_back m ltac:(lia)) as [Htm Hpm].
  destruct (two_digit_text_reads_back d Hd) as [Htd Hpd].
  unfold _update_var. rewrite Hty, Htm, Htd, Hpy, Hpm, Hpd.
  cbn [andb mbind result_bind mret result_ret].
  unfold datetime_new. rewrite Hmake.
  replace (_ && _ && _) with true; [done|].
  symmetry. rewrite !andb_true_iff, !Z.leb_le. lia.
Qed.

Lemma strptime_makes s dt :
  Date.strptime s = Ok dt →
  Date.make (Date.year dt) (Date.month dt) (Date.day dt) = Ok dt.
Proof.
  unfold Date.strptime.
  destruct s as [|y1 [|y2 [|y3 [|y4 [|c rest]]]]]; try done.
  destruct c as [[] [] [] [] [] [] [] []]; try done.
  destruct (_ && _); [|done].
  destruct (Date.month_day rest) as [[[m d] [|]]|]; try done.
  intros Hmake. pose proof Hmake as (_ & _ & _ & ->)%make_inv. done.
Qed.

Lemma day_is_listed y m d dt :
  Date.make y m d = Ok dt →
  format_0d 2 d ∈ format_0d 2 <$> seqZ 1 (Date.days_in_month y m).
Proof.
  unfold Date.make.
  destruct (negb _); [done|]. destruct (negb _); [done|].
  destruct (negb _) eqn:Hd; [done|]. intros _.
  apply negb_false_iff, andb_true_iff in Hd as [?%Z.leb_le ?%Z.leb_le].
  apply list_elem_of_fmap_2, elem_of_seqZ. lia.
Qed.

(** X24.  [set] followed by [get] gives back the date in ISO form when
    the text is a date, and the empty string when it is not; [set]
    never raises. *)
Theorem set_then_get (self : DateEntry) (value : string) :
  ∃ self',
    DateEntry_set self value = Ok self' ∧
    match Date.strptime value with
    | Ok dt =>
        DateEntry_get self'
          = format_0d 4 (Date.year dt) +:+ "-" +:+ format_0d 2 (Date.month dt)
            +:+ "-" +:+ format_0d 2 (Date.day dt) ∧
        Date.strptime (DateEntry_get self') = Ok dt
    | Raise _ => DateEntry_get self' = ""
    end.
Proof.
  unfold DateEntry_set.
  destruct (Date.strptime value) as [dt|e] eqn:Hparse; [|by eexists].
  apply strptime_makes in Hparse.
  pose proof Hparse as (Hy & Hm & Hd & _)%make_inv.
  unfold DateEntry_update_var, choose_day, _update_day_options.
  cbn [year_var month_var day_var day_values var].
  rewrite (proj2 (year_text_reads_back _ Hy)).
  rewrite (proj2 (two_digit_text_reads_back (Date.month dt) ltac:(lia))).
  cbn [mbind result_bind]. unfold monthrange.
  replace ((1 <=? Date.month dt) && (Date.month dt <=? 12)) with true
    by (symmetry; rewrite andb_true_iff, !Z.leb_le; lia).
  rewrite (bool_decide_eq_true_2 _ (day_is_listed _ _ _ _ Hparse)).
  rewrite (update_var_of_date _ _ _ _ Hparse).
  cbn [mbind result_bind mret result_ret]. eexists. split; [done|].
  unfold DateEntry_get. cbn [var]. split; [done|].
  by apply strptime_of_formatted.
Qed.

Example set_then_get_short_date :
  (e ← DateEntry_set empty_entry "2024-2-9"; mret (DateEntry_get e))
    = Ok "2024-02-09" ∧
  (e ← DateEntry_set jan_31 "9.2.2024"; mret (DateEntry_get e)) = Ok "" ∧
  (e ← DateEntry_set jan_31 "2023-02-29"; mret (DateEntry_get e)) = Ok "".
Proof. split_and!; vm_compute; reflexivity. Qed.





(** From the 31st of January to February: the first of the month. *)
Example january_31_to_february :
  (e ← _on_change true feb_chosen; mret (DateEntry_get e)) = Ok "2024-02-01".
Proof. vm_compute. reflexivity. Qed.
